(** * excel_modifier: conditional colouring of numeric spreadsheet columns

    A shallow embedding of [src/excel_modifier/__init__.py] (class
    [ExcelModifier]) together with the part of pandas and xlsxwriter that
    the class relies on, followed by the properties of the formatting pass.

    Conventions of the embedding.
    - A Python float (or numpy number) is an exact rational or the
      distinguished value [NaN]; infinities and rounding are not represented.
      Comparisons follow IEEE/Python: every comparison with [NaN] is false.
    - Python exceptions are the constructors of [exn]; a method that can raise
      or that writes to the workbook lives in the monad [M] (the attributes
      of the [ExcelModifier] object as state, plus an exception result).
    - [worksheet.write] appends a directive to the log of its sheet, so the
      log is the sequence of directives handed to the output sink. *)

From Stdlib Require Import QArith Qround Qminmax Lqa Ascii String Sorted.
From stdpp Require Import base list gmap strings.

Local Open Scope Q_scope.

(** ** Numbers *)

Module Num.

Inductive number : Type :=
| Fin (q : Q)
| NaN.

Definition is_nan (x : number) : bool :=
  match x with NaN => true | Fin _ => false end.

(** [x <= y], [x < y], [x == y], [x >= y], [x > y] on Python floats. *)
Definition leb (x y : number) : bool :=
  match x, y with
  | Fin a, Fin b => Qle_bool a b
  | _, _ => false
  end.

Definition ltb (x y : number) : bool :=
  match x, y with
  | Fin a, Fin b => negb (Qle_bool b a)
  | _, _ => false
  end.

Definition eqb (x y : number) : bool :=
  match x, y with
  | Fin a, Fin b => Qeq_bool a b
  | _, _ => false
  end.

Definition geb (x y : number) : bool := leb y x.
Definition gtb (x y : number) : bool := ltb y x.

(** [x / y] and [x - y] for a finite non-zero divisor; division by a
    zero float raises in Python and is not needed by the program (the
    only divisor is the literal 100). *)
Definition div (x : number) (d : Q) : number :=
  match x with Fin a => Fin (a / d) | NaN => NaN end.

Definition rsub (c : Q) (x : number) : number :=
  match x with Fin a => Fin (c - a) | NaN => NaN end.


Definition lt (x y : number) : Prop :=
  match x, y with Fin a, Fin b => a < b | _, _ => False end.


End Num.

Export Num (number, Fin, NaN).

(** ** The pandas data model

    Only what [ExcelModifier] uses: column labels, numeric and non-numeric
    columns, [sort_values], [quantile] (default linear interpolation),
    [max], [min], elementwise [==] followed by [mean], [iat]. *)

Module Pandas.

(** A column label: a plain name, or the tuple of levels of a
    multi-indexed column. *)
Inductive label : Type :=
| Simple (name : string)
| Composite (levels : list string).

#[global] Instance label_eq_dec : EqDecision label.
Proof. solve_decision. Defined.

(** A scalar read from a frame. *)
Inductive pyobj : Type :=
| PNum (x : number)
| PStr (s : string).

(** A column has a numeric dtype (and then holds numbers only, [NaN] for a
    missing value) or the object dtype. *)
Inductive Series : Type :=
| NumericSeries (values : list number)
| ObjectSeries (values : list pyobj).

Record DataFrame : Type := {
  shape0 : nat;                       (* number of rows *)
  columns : list (label * Series)     (* in positional order *)
}.

Definition columns_tolist (df : DataFrame) : list label :=
  map fst (columns df).

Definition is_numeric_dtype (s : Series) : bool :=
  match s with NumericSeries _ => true | ObjectSeries _ => false end.

(** [df[lbl]]: the column carrying the label.  The labels of a frame are
    taken to be distinct; on a repeated label (for which pandas returns a
    frame) the first column stands for it. *)
Fixpoint lookup_label (lbl : label) (cols : list (label * Series)) : option Series :=
  match cols with
  | [] => None
  | (l, s) :: cols' => if decide (l = lbl) then Some s else lookup_label lbl cols'
  end.

Definition getitem (df : DataFrame) (lbl : label) : option Series :=
  lookup_label lbl (columns df).

Definition series_values (s : Series) : list pyobj :=
  match s with
  | NumericSeries xs => map PNum xs
  | ObjectSeries xs => xs
  end.

(** [df.iat[row_pos, column_pos]]. *)
Definition iat (df : DataFrame) (row_pos column_pos : nat) : option pyobj :=
  match columns df !! column_pos with
  | Some (_, s) => series_values s !! row_pos
  | None => None
  end.

(** The non-missing values of a numeric column. *)
Fixpoint dropna (xs : list number) : list Q :=
  match xs with
  | [] => []
  | Fin q :: xs' => q :: dropna xs'
  | NaN :: xs' => dropna xs'
  end.

Fixpoint insert_sorted (x : Q) (l : list Q) : list Q :=
  match l with
  | [] => [x]
  | y :: l' => if Qle_bool x y then x :: l else y :: insert_sorted x l'
  end.

Fixpoint sort (l : list Q) : list Q :=
  match l with
  | [] => []
  | x :: l' => insert_sorted x (sort l')
  end.

(** [series.sort_values()]: ascending, missing values last. *)
Definition sort_values (xs : list number) : list number :=
  map Fin (sort (dropna xs)) ++ List.filter Num.is_nan xs.

(** The interpolation of the default method of [quantile]:
    [i + (j - i) * fraction], [i] and [j] the neighbours of the fractional
    index [q * (n - 1)] in the sorted values. *)
Definition interpolate_linear (sorted : list Q) (q : Q) : Q :=
  let n := Z.of_nat (length sorted) in
  let virtual_index := q * inject_Z (n - 1) in
  let previous := Qfloor virtual_index in
  let next := Z.min (previous + 1) (n - 1) in
  let fraction := virtual_index - inject_Z previous in
  let i := nth (Z.to_nat previous) sorted 0 in
  let j := nth (Z.to_nat next) sorted 0 in
  i + (j - i) * fraction.

Definition validate_percentile (q : number) : bool :=
  Num.leb (Fin 0) q && Num.leb q (Fin 1).

(** [series.quantile(q)] on the values of a numeric column: [None] stands
    for the [ValueError] of a percentile outside [0, 1]; missing values are
    dropped, and the quantile of no value at all is [NaN]. *)
Definition quantile (xs : list number) (q : number) : option number :=
  if validate_percentile q then
    match q, sort (dropna xs) with
    | Fin q', v :: vs => Some (Fin (interpolate_linear (v :: vs) q'))
    | _, _ => Some NaN
    end
  else None.

(** [series.max()] and [series.min()]: missing values are skipped. *)
Definition max (xs : list number) : number :=
  match dropna xs with
  | [] => NaN
  | q :: qs => Fin (foldl Qmax q qs)
  end.

Definition min (xs : list number) : number :=
  match dropna xs with
  | [] => NaN
  | q :: qs => Fin (foldl Qmin q qs)
  end.

(** [series == x]: a column of booleans. *)
Definition eq_scalar (xs : list number) (x : number) : list bool :=
  map (fun v => Num.eqb v x) xs.

(** [mask.mean()]: the fraction of [True] entries; [NaN] on no rows. *)
Definition mean (mask : list bool) : number :=
  match mask with
  | [] => NaN
  | _ => Fin (inject_Z (Z.of_nat (length (List.filter id mask)))
              / inject_Z (Z.of_nat (length mask)))
  end.

End Pandas.

Export Pandas (label, Simple, Composite, pyobj, PNum, PStr, Series,
               NumericSeries, ObjectSeries, DataFrame).

(** ** Python strings: [str.split], [in] on strings, [float], [int] *)

Module PyStr.

Local Open Scope Z_scope.

(** Whitespace for [str.split()] with no separator, on code points
    below 256. *)
Definition is_space (a : ascii) : bool :=
  let n := Z.of_nat (nat_of_ascii a) in
  ((9 <=? n) && (n <=? 13)) || ((28 <=? n) && (n <=? 32))
  || (n =? 133) || (n =? 160).

Definition cons_token (tok : string) (toks : list string) : list string :=
  if decide (tok = EmptyString) then toks else tok :: toks.

(** The token that starts at the head of the text (empty when the text
    starts with whitespace) and the tokens after it. *)
Fixpoint split_from (s : string) : string * list string :=
  match s with
  | EmptyString => (EmptyString, [])
  | String a s' =>
      let '(tok, toks) := split_from s' in
      if is_space a then (EmptyString, cons_token tok toks)
      else (String a tok, toks)
  end.

(** [s.split()] *)
Definition split (s : string) : list string :=
  let '(tok, toks) := split_from s in cons_token tok toks.

(** [s in t] for two strings: [s] occurs in [t]. *)
Fixpoint is_substring (s t : string) : bool :=
  String.prefix s t
  || match t with
     | EmptyString => false
     | String _ t' => is_substring s t'
     end.

Definition is_digit (a : ascii) : bool :=
  let n := Z.of_nat (nat_of_ascii a) in (48 <=? n) && (n <=? 57).

Definition digit_value (a : ascii) : Z := Z.of_nat (nat_of_ascii a) - 48.

(** A run of decimal digits in which single underscores may separate two
    digits; returns the value read so far, the number of digits read and
    the unread text. *)
Fixpoint read_digits (l : list ascii) (acc : Z) (n : nat) : Z * nat * list ascii :=
  match l with
  | c :: l' =>
      if is_digit c then read_digits l' (10 * acc + digit_value c) (S n)
      else
        match n, l' with
        | S _, d :: l'' =>
            if Ascii.eqb c "_"%char && is_digit d
            then read_digits l'' (10 * acc + digit_value d) (S n)
            else (acc, n, l)
        | _, _ => (acc, n, l)
        end
  | [] => (acc, n, l)
  end.

Definition read_sign (l : list ascii) : bool * list ascii :=
  match l with
  | c :: l' =>
      if Ascii.eqb c "-"%char then (true, l')
      else if Ascii.eqb c "+"%char then (false, l')
      else (false, l)
  | [] => (false, l)
  end.

Definition lower (a : ascii) : ascii :=
  let n := nat_of_ascii a in
  if ((65 <=? n) && (n <=? 90))%nat then ascii_of_nat (n + 32) else a.

(** [int(s)] for a token: optional sign and decimal digits. *)
Definition int_of_token (s : string) : option Z :=
  let '(neg, l) := read_sign (list_ascii_of_string s) in
  match read_digits l 0 0 with
  | (v, S _, []) => Some (if neg then - v else v)
  | _ => None
  end.

Definition pow10 (e : Z) : Q :=
  if 0 <=? e then inject_Z (10 ^ e) else (1 # Z.to_pos (10 ^ (- e)))%Q.

(** The optional exponent of a float literal. *)
Definition read_exponent (l : list ascii) : option (Z * list ascii) :=
  match l with
  | c :: l' =>
      if Ascii.eqb (lower c) "e"%char then
        let '(neg, l1) := read_sign l' in
        match read_digits l1 0 0 with
        | (v, S _, rest) => Some (if neg then - v else v, rest)
        | _ => None
        end
      else Some (0, l)
  | [] => Some (0, l)
  end.

(** [float(s)] for a token: [nan], or a decimal literal with optional
    sign, fraction and exponent.  The literals [inf] and [infinity] denote
    values outside the number model and are not covered. *)
Definition float_of_token (s : string) : option number :=
  let '(neg, l) := read_sign (list_ascii_of_string s) in
  if decide (map lower l = list_ascii_of_string "nan"%string) then Some NaN
  else
    let '(ip, ni, l1) := read_digits l 0 0 in
    let '(fp, nf, l2) :=
      match l1 with
      | c :: l1' => if Ascii.eqb c "."%char then read_digits l1' 0 0 else (0, O, l1)
      | [] => (0, O, l1)
      end in
    match (ni + nf)%nat, read_exponent l2 with
    | S _, Some (e, []) =>
        let mantissa := (inject_Z (ip * 10 ^ Z.of_nat nf + fp) * pow10 (- Z.of_nat nf))%Q in
        let v := (mantissa * pow10 e)%Q in
        Some (Fin (Qred (if neg then - v else v)%Q))
    | _, _ => None
    end.

End PyStr.

(** ** Exceptions and the workbook *)

Inductive exn : Type := KeyError | ValueError | IndexError | TypeError.

Definition result (A : Type) : Type := exn + A.

Definition ok {A} (x : A) : result A := inr x.
Definition raise {A} (e : exn) : result A := inl e.

#[global] Instance result_ret : MRet result := fun A x => ok x.
#[global] Instance result_bind : MBind result := fun A B f r =>
  match r with
  | inl e => inl e
  | inr x => f x
  end.

(** [for x in l: s = f(s, x)] with exceptions. *)
Fixpoint foldM {A S : Type} (f : S -> A -> result S) (s : S) (l : list A) : result S :=
  match l with
  | [] => ok s
  | x :: l' => s' ← f s x; foldM f s' l'
  end.

Definition of_option {A} (e : exn) (o : option A) : result A :=
  match o with Some x => ok x | None => raise e end.

Module Xlsx.

(** A cell format, reduced to the one property the program sets. *)
Record Format : Type := { bg_color : string }.

(** One call of [worksheet.write(row, col, value, format)]. *)
Record directive : Type := {
  w_row : Z;
  w_col : Z;
  w_value : pyobj;
  w_format : Format
}.

(** The [XlsxWriter] of a workbook: the formats registered in the book and,
    per sheet name, the directives written so far (oldest first). *)
Record Writer : Type := {
  book_formats : list Format;
  sheets : gmap string (list directive)
}.

Definition add_format (f : Format) (w : Writer) : Writer :=
  {| book_formats := book_formats w ++ [f]; sheets := sheets w |}.

Definition write (sheet_name : string) (d : directive) (w : Writer) : Writer :=
  {| book_formats := book_formats w;
     sheets := alter (fun log => log ++ [d]) sheet_name (sheets w) |}.

End Xlsx.

Export Xlsx (Format, directive, Writer).

(** ** The class [ExcelModifier] *)

Module ExcelModifier.

Import Pandas.
Local Open Scope string_scope.

(** The attributes of an [ExcelModifier] object.  [sheets_to_modify] is a
    Python dict from sheet name to frame; it is iterated in insertion
    order, hence a list of items. *)
Record modifier : Type := {
  workbook_writer : Writer;
  sheets_to_modify : list (string * DataFrame)
}.

(** Methods run on [self] and may raise. *)
Definition M (A : Type) : Type := modifier -> result A * modifier.

#[global] Instance M_ret : MRet M := fun A x self => (ok x, self).
#[global] Instance M_bind : MBind M := fun A B f m self =>
  match m self with
  | (inl e, self') => (inl e, self')
  | (inr x, self') => f x self'
  end.

Definition lift {A} (r : result A) : M A := fun self => (r, self).

(** [for x in l: body(x)] *)
Fixpoint for_each {A} (l : list A) (body : A -> M unit) : M unit :=
  match l with
  | [] => mret tt
  | x :: l' => body x;; for_each l' body
  end.

(** [self.sheets_to_modify.items()] *)
Definition read_sheets_to_modify : M (list (string * DataFrame)) :=
  fun self => (ok (sheets_to_modify self), self).

(** [self.workbook_writer.book.add_format({'bg_color': c})] *)
Definition add_format (c : string) : M Format :=
  fun self =>
    let f := {| Xlsx.bg_color := c |} in
    (ok f, {| workbook_writer := Xlsx.add_format f (workbook_writer self);
              sheets_to_modify := sheets_to_modify self |}).

(** [self.workbook_writer.sheets[sheet_name]]: the worksheet is referred
    to by its name once it is known to exist. *)
Definition get_worksheet (sheet_name : string) : M string :=
  fun self =>
    match Xlsx.sheets (workbook_writer self) !! sheet_name with
    | Some _ => (ok sheet_name, self)
    | None => (raise KeyError, self)
    end.

(** [worksheet.write(row, col, value, format)] *)
Definition worksheet_write (worksheet : string) (row col : Z) (value : pyobj)
    (format : Format) : M unit :=
  fun self =>
    let d := {| Xlsx.w_row := row; Xlsx.w_col := col;
                Xlsx.w_value := value; Xlsx.w_format := format |} in
    (ok tt, {| workbook_writer := Xlsx.write worksheet d (workbook_writer self);
               sheets_to_modify := sheets_to_modify self |}).

(** The values stored in the parameter dict of [_parse_instructions]. *)
Inductive pyval : Type :=
| VFloat (x : number)
| VStr (s : string)
| VInt (z : Z).

(** [d[key]] on a dict. *)
Definition subscript {K V} `{Countable K} (d : gmap K V) (key : K) : result V :=
  of_option KeyError (d !! key).

Definition as_float (v : pyval) : result number :=
  match v with VFloat x => ok x | _ => raise TypeError end.
Definition as_str (v : pyval) : result string :=
  match v with VStr s => ok s | _ => raise TypeError end.
Definition as_int (v : pyval) : result Z :=
  match v with VInt z => ok z | _ => raise TypeError end.

(** Lines 38-56. *)
Definition _get_indices_to_edit (sheet_data : DataFrame) (columns : list label)
    (multi_index : bool) : list nat :=
  let list_of_columns := columns_tolist sheet_data in
  List.filter
    (fun i =>
       match list_of_columns !! i with
       | Some lbl =>
           bool_decide (lbl ∈ columns)
           && match getitem sheet_data lbl with
              | Some s => is_numeric_dtype s
              | None => false
              end
       | None => false
       end)
    (seq 0 (length list_of_columns)).

(** Lines 58-90.  A column of object dtype has no quantile. *)
Definition _calculate_bounds (series : Series) (upper_bound lower_bound : number)
    : result (number * number) :=
  match series with
  | ObjectSeries _ => raise TypeError
  | NumericSeries values =>
      let sorted_series := sort_values values in
      let upper_bound_quantile := Num.rsub 1 (Num.div upper_bound 100) in
      let lower_bound_quantile := Num.div lower_bound 100 in
      x ← of_option ValueError (quantile sorted_series upper_bound_quantile);
      y ← of_option ValueError (quantile sorted_series lower_bound_quantile);
      ok (x, y)
  end.

Definition POSSIBLE_INSTRUCTIONS : string := "MmCcpsoO".

Definition py_float (s : string) : result number :=
  of_option ValueError (PyStr.float_of_token s).
Definition py_int (s : string) : result Z :=
  of_option ValueError (PyStr.int_of_token s).

(** The [match current_elem] statement of lines 110-133. *)
Definition apply_instruction (current_elem next_item : string)
    (params_to_pass : gmap string pyval) : result (gmap string pyval) :=
  if String.eqb current_elem "M" then
    x ← py_float next_item; ok (<["margin_upper" := VFloat x]> params_to_pass)
  else if String.eqb current_elem "m" then
    x ← py_float next_item; ok (<["margin_lower" := VFloat x]> params_to_pass)
  else if String.eqb current_elem "C" then
    ok (<["colour_upper" :=
           VStr (if String.eqb next_item "r" then "red" else "green")]> params_to_pass)
  else if String.eqb current_elem "c" then
    ok (<["colour_lower" :=
           VStr (if String.eqb next_item "r" then "red" else "green")]> params_to_pass)
  else if String.eqb current_elem "p" then
    x ← py_float next_item; ok (<["majority_percentage" := VFloat x]> params_to_pass)
  else if String.eqb current_elem "s" then
    if String.eqb next_item "u" then
      ok (<["formatting_option" := VStr "colour_upper"]> params_to_pass)
    else if String.eqb next_item "l" then
      ok (<["formatting_option" := VStr "colour_lower"]> params_to_pass)
    else if String.eqb next_item "b" then
      ok (<["formatting_option" := VStr "colour_both"]> params_to_pass)
    else ok params_to_pass
  else if String.eqb current_elem "o" then
    z ← py_int next_item; ok (<["row_offset" := VInt z]> params_to_pass)
  else if String.eqb current_elem "O" then
    z ← py_int next_item; ok (<["column_offset" := VInt z]> params_to_pass)
  else ok params_to_pass.

(** The body of the loop of [_parse_instructions], lines 105-133. *)
Definition parse_step (instruction_split : list string)
    (params_to_pass : gmap string pyval) (i : nat) : result (gmap string pyval) :=
  current_elem ← of_option IndexError (instruction_split !! i);
  if PyStr.is_substring current_elem POSSIBLE_INSTRUCTIONS then
    next_item ← of_option IndexError (instruction_split !! (i + 1)%nat);
    apply_instruction current_elem next_item params_to_pass
  else ok params_to_pass.

(** Lines 92-135. *)
Definition _parse_instructions (instructions : string) : result (gmap string pyval) :=
  let instruction_split := PyStr.split instructions in
  foldM (parse_step instruction_split) ∅ (seq 0 (length instruction_split)).

(** A scalar read from the frame, as an operand of [<], [<=]: ordering a
    number against a str raises. *)
Definition as_number (v : pyobj) : result number :=
  match v with PNum x => ok x | PStr _ => raise TypeError end.

(** [v != s] for a str [s]: a number never equals a str. *)
Definition ne_str (v : pyobj) (s : string) : bool :=
  match v with PNum _ => true | PStr t => negb (String.eqb t s) end.

(** The chained comparison [a R1 v R2 b]: [a R1 v and v R2 b], the second
    operand [b] being evaluated only when the first comparison holds. *)
Definition chained (R1 R2 : number -> number -> bool) (a : number) (v : pyobj)
    (b : result number) : result bool :=
  x ← as_number v;
  if R1 a x then y ← b; ok (R2 x y) else ok false.

Definition upper_modes : gset string := {[ "colour_upper"; "colour_both" ]}.
Definition lower_modes : gset string := {[ "colour_lower"; "colour_both" ]}.

Section loops.

Variables (worksheet : string) (sheet_data : DataFrame)
          (formatting_option : string)
          (upper_colour_format lower_colour_format : Format)
          (row_offset column_offset : Z)
          (bounds : gmap nat (number * number)).

(** The body of the loop over rows, lines 392-418. *)
Definition row_body (column_pos : nat) (largest smallest : number)
    (upper_bound_majority_exists lower_bound_majority_exists : bool)
    (row_pos : nat) : M unit :=
  current_data ← lift (of_option IndexError (iat sheet_data row_pos column_pos));
  if ne_str current_data "nan" then
    (if bool_decide (formatting_option ∈ upper_modes) then
       if upper_bound_majority_exists then
         c ← lift (chained Num.gtb Num.geb largest current_data
                     (b ← subscript bounds column_pos; ok b.1));
         if c : bool then
           worksheet_write worksheet (row_offset + Z.of_nat row_pos)
             (column_offset + Z.of_nat column_pos) current_data upper_colour_format
         else mret tt
       else
         c ← lift (chained Num.geb Num.geb largest current_data
                     (b ← subscript bounds column_pos; ok b.1));
         if c : bool then
           worksheet_write worksheet (row_offset + Z.of_nat row_pos)
             (column_offset + Z.of_nat column_pos) current_data upper_colour_format
         else mret tt
     else mret tt);;
    (if bool_decide (formatting_option ∈ lower_modes) then
       if lower_bound_majority_exists then
         c ← lift (chained Num.ltb Num.leb smallest current_data
                     (b ← subscript bounds column_pos; ok b.2));
         if c : bool then
           worksheet_write worksheet (row_offset + Z.of_nat row_pos)
             (column_offset + Z.of_nat column_pos) current_data lower_colour_format
         else mret tt
       else
         c ← lift (chained Num.leb Num.leb smallest current_data
                     (b ← subscript bounds column_pos; ok b.2));
         if c : bool then
           worksheet_write worksheet (row_offset + Z.of_nat row_pos)
             (column_offset + Z.of_nat column_pos) current_data lower_colour_format
         else mret tt
     else mret tt)
  else mret tt.

(** [series.max()], [series == x] and the like need a numeric column. *)
Definition numeric_values (s : Series) : result (list number) :=
  match s with
  | NumericSeries values => ok values
  | ObjectSeries _ => raise TypeError
  end.

(** [(current_column == x).mean() >= ignore_bound_percentage] *)
Definition majority_exists (current_column : list number) (x : number)
    (ignore_bound_percentage : number) : bool :=
  Num.geb (mean (eq_scalar current_column x)) ignore_bound_percentage.

(** The body of the loop over the selected columns, lines 367-418. *)
Definition column_body (majority_percentage : number) (column_pos : nat) : M unit :=
  lbl ← lift (of_option IndexError (columns_tolist sheet_data !! column_pos));
  series ← lift (of_option KeyError (getitem sheet_data lbl));
  current_column ← lift (numeric_values series);
  let ignore_bound_percentage := Num.div majority_percentage 100 in
  let largest := max current_column in
  let upper_bound_majority_exists :=
    majority_exists current_column largest ignore_bound_percentage in
  let smallest := min current_column in
  let lower_bound_majority_exists :=
    majority_exists current_column smallest ignore_bound_percentage in
  for_each (seq 0 (shape0 sheet_data))
    (row_body column_pos largest smallest
       upper_bound_majority_exists lower_bound_majority_exists).

End loops.

(** The dict comprehension of lines 357-359. *)
Definition compute_bounds (sheet_data : DataFrame) (upper_bound lower_bound : number)
    (column_indices_to_format : list nat) : result (gmap nat (number * number)) :=
  foldM (fun (d : gmap nat (number * number)) column_index =>
           lbl ← of_option IndexError (columns_tolist sheet_data !! column_index);
           series ← of_option KeyError (getitem sheet_data lbl);
           b ← _calculate_bounds series upper_bound lower_bound;
           ok (<[column_index := b]> d))
        ∅ column_indices_to_format.

Definition colour_code (colour : string) : string :=
  if String.eqb colour "red" then "#FFC7CE" else "#C6EFCE".

(** Lines 269-418. *)
Definition _colourize_columns (sheet_name : string) (sheet_data : DataFrame)
    (columns_to_format : list label) (formatting_option : string)
    (margin_options : number * number) (colour_options : string * string)
    (majority_percentage : number) (write_offsets : Z * Z)
    (multi_index : bool) : M unit :=
  let '(upper_bound, lower_bound) := margin_options in
  let '(upper_colour, lower_colour) := colour_options in
  upper_colour_format ← add_format (colour_code upper_colour);
  lower_colour_format ← add_format (colour_code lower_colour);
  let '(row_offset, column_offset) := write_offsets in
  let column_indices_to_format :=
    _get_indices_to_edit sheet_data columns_to_format multi_index in
  bounds ← lift (compute_bounds sheet_data upper_bound lower_bound
                   column_indices_to_format);
  worksheet ← get_worksheet sheet_name;
  for_each column_indices_to_format
    (column_body worksheet sheet_data formatting_option
       upper_colour_format lower_colour_format row_offset column_offset
       bounds majority_percentage).

(** The parameters read from the parsed instructions, in the order of
    lines 253-260. *)
Record options : Type := {
  formatting_option : string;
  margin_options : number * number;
  colour_options : string * string;
  majority_percentage : number;
  write_offsets : Z * Z
}.

Definition extract_options (parsed_instructions : gmap string pyval) : result options :=
  formatting_option ← subscript parsed_instructions "formatting_option" ≫= as_str;
  margin_upper ← subscript parsed_instructions "margin_upper" ≫= as_float;
  margin_lower ← subscript parsed_instructions "margin_lower" ≫= as_float;
  colour_upper ← subscript parsed_instructions "colour_upper" ≫= as_str;
  colour_lower ← subscript parsed_instructions "colour_lower" ≫= as_str;
  majority_percentage ← subscript parsed_instructions "majority_percentage" ≫= as_float;
  row_offset ← subscript parsed_instructions "row_offset" ≫= as_int;
  column_offset ← subscript parsed_instructions "column_offset" ≫= as_int;
  ok {| formatting_option := formatting_option;
        margin_options := (margin_upper, margin_lower);
        colour_options := (colour_upper, colour_lower);
        majority_percentage := majority_percentage;
        write_offsets := (row_offset, column_offset) |}.

(** Lines 176-267. *)
Definition colourize_columns (columns : list label) (instructions : string)
    (multi_index : bool) : M unit :=
  parsed_instructions ← lift (_parse_instructions instructions);
  o ← lift (extract_options parsed_instructions);
  items ← read_sheets_to_modify;
  for_each items
    (fun '(sheet_name, sheet_data) =>
       _colourize_columns sheet_name sheet_data columns
         (formatting_option o) (margin_options o) (colour_options o)
         (majority_percentage o) (write_offsets o) multi_index).

(** Lines 137-174. *)
Definition colourize_all (instructions : string) (exclude_columns : list label)
    (multi_index : bool) : M unit :=
  parsed_instructions ← lift (_parse_instructions instructions);
  o ← lift (extract_options parsed_instructions);
  items ← read_sheets_to_modify;
  for_each items
    (fun '(sheet_name, sheet_data) =>
       let columns :=
         List.filter (fun column_name => negb (bool_decide (column_name ∈ exclude_columns)))
                     (columns_tolist sheet_data) in
       _colourize_columns sheet_name sheet_data columns
         (formatting_option o) (margin_options o) (colour_options o)
         (majority_percentage o) (write_offsets o) multi_index).

End ExcelModifier.

(** ** The directives of a run

    The loops of [_colourize_columns] change the object in one way only:
    they append directives to the log of one worksheet.  [appends] says so
    for a computation, [runs] bounds what a loop appends by the directives of
    its complete run. *)

Module Trace.

Import Pandas ExcelModifier.

Definition push (worksheet : string) (ws : list directive) (self : modifier) : modifier :=
  {| workbook_writer :=
       {| Xlsx.book_formats := Xlsx.book_formats (workbook_writer self);
          Xlsx.sheets := alter (fun log => log ++ ws) worksheet
                               (Xlsx.sheets (workbook_writer self)) |};
     sheets_to_modify := sheets_to_modify self |}.

Definition appends {A} (worksheet : string) (m : M A) (r : result A)
    (ws : list directive) : Prop :=
  forall self, m self = (r, push worksheet ws self).

Definition runs (worksheet : string) (m : M unit) (T : list directive) : Prop :=
  exists r ws, appends worksheet m r ws /\ ws `prefix_of` T /\ (r = ok tt -> ws = T).

(** The object after the two [add_format] calls of [_colourize_columns]. *)
Definition register_formats (colour_options : string * string) (self : modifier)
    : modifier :=
  {| workbook_writer :=
       Xlsx.add_format {| Xlsx.bg_color := colour_code colour_options.2 |}
         (Xlsx.add_format {| Xlsx.bg_color := colour_code colour_options.1 |}
            (workbook_writer self));
     sheets_to_modify := sheets_to_modify self |}.

(** Between [self] and [self'] the directives [ws] were appended to the
    log of the sheet, and no other log changed. *)
Definition emitted (sheet_name : string) (self self' : modifier)
    (ws : list directive) : Prop :=
  Xlsx.sheets (workbook_writer self')
  = alter (fun log => log ++ ws) sheet_name (Xlsx.sheets (workbook_writer self)).

Definition mk_directive (row_offset column_offset : Z) (row_pos column_pos : nat)
    (v : pyobj) (f : Format) : directive :=
  {| Xlsx.w_row := row_offset + Z.of_nat row_pos;
     Xlsx.w_col := column_offset + Z.of_nat column_pos;
     Xlsx.w_value := v; Xlsx.w_format := f |}.

Section pass.

Variables (sheet_data : DataFrame) (formatting_option : string)
          (upper_colour_format lower_colour_format : Format)
          (row_offset column_offset : Z).

(** What one numeric cell contributes, given the bound pair, the extremes
    and the majority flags of its column. *)
Definition cell_directives (b : number * number) (largest smallest : number)
    (upper_majority lower_majority : bool) (column_pos row_pos : nat)
    (v : number) : list directive :=
  (if bool_decide (formatting_option ∈ upper_modes)
      && (if upper_majority then Num.gtb largest v else Num.geb largest v)
      && Num.geb v b.1
   then [mk_directive row_offset column_offset row_pos column_pos (PNum v)
           upper_colour_format]
   else [])
  ++
  (if bool_decide (formatting_option ∈ lower_modes)
      && (if lower_majority then Num.ltb smallest v else Num.leb smallest v)
      && Num.leb v b.2
   then [mk_directive row_offset column_offset row_pos column_pos (PNum v)
           lower_colour_format]
   else []).

Definition cell_trace (b : number * number) (largest smallest : number)
    (upper_majority lower_majority : bool) (column_pos row_pos : nat)
    : list directive :=
  match iat sheet_data row_pos column_pos with
  | Some (PNum v) =>
      cell_directives b largest smallest upper_majority lower_majority
        column_pos row_pos v
  | _ => []
  end.

(** The series that [sheet_data[sheet_data_columns[column_pos]]] denotes. *)
Definition column_at (column_pos : nat) : option Series :=
  columns_tolist sheet_data !! column_pos ≫= getitem sheet_data.

Definition values_at (column_pos : nat) : list number :=
  match column_at column_pos with
  | Some (NumericSeries values) => values
  | _ => []
  end.

(** The bound pair [_calculate_bounds] returns for the column. *)
Definition bounds_at (upper_bound lower_bound : number) (column_pos : nat)
    : number * number :=
  match column_at column_pos with
  | Some s =>
      match _calculate_bounds s upper_bound lower_bound with
      | inr b => b
      | inl _ => (NaN, NaN)
      end
  | None => (NaN, NaN)
  end.

Definition column_trace (b : number * number) (majority_percentage : number)
    (column_pos : nat) : list directive :=
  let current_column := values_at column_pos in
  let ignore_bound_percentage := Num.div majority_percentage 100 in
  let largest := max current_column in
  let smallest := min current_column in
  flat_map
    (cell_trace b largest smallest
       (majority_exists current_column largest ignore_bound_percentage)
       (majority_exists current_column smallest ignore_bound_percentage)
       column_pos)
    (seq 0 (shape0 sheet_data)).

Definition pass_trace (columns_to_format : list label)
    (margin_options : number * number) (majority_percentage : number)
    (multi_index : bool) : list directive :=
  flat_map
    (fun column_pos =>
       column_trace (bounds_at margin_options.1 margin_options.2 column_pos)
         majority_percentage column_pos)
    (_get_indices_to_edit sheet_data columns_to_format multi_index).

End pass.

End Trace.

(** ** The words of the specification *)

Module Spec.


(** The number of rows of a column that hold the value [x]. *)
Definition occurrences (x : number) (column : list number) : nat :=
  length (List.filter (fun v => Num.eqb v x) column).

(** The frequency of [x] in a column reaches the threshold of [p] percent. *)
Definition frequency_reaches (x : number) (column : list number) (p : Q) : Prop :=
  p / 100 <= inject_Z (Z.of_nat (occurrences x column))
             / inject_Z (Z.of_nat (length column)).



Definition mode_includes_upper (formatting_option : string) : Prop :=
  formatting_option = "colour_upper"%string \/ formatting_option = "colour_both"%string.

Definition mode_includes_lower (formatting_option : string) : Prop :=
  formatting_option = "colour_lower"%string \/ formatting_option = "colour_both"%string.

End Spec.

(** ** Instruction strings: the example of the documentation and what makes
    a string malformed *)

Module Instr.

Import ExcelModifier.
Local Open Scope string_scope.

Definition example : string := "M 5.0 m 10.0 C g c r p 10.0 s b o 1 O 0".

(** The key/value pairs of [example]. *)
Definition example_pairs : list (string * string) :=
  [("M", "5.0"); ("m", "10.0"); ("C", "g"); ("c", "r");
   ("p", "10.0"); ("s", "b"); ("o", "1"); ("O", "0")].

(** The tokens of a list of key/value pairs. *)
Definition pair_tokens (pairs : list (string * string)) : list string :=
  flat_map (fun kv => [kv.1; kv.2]) pairs.

(** The instruction string that lists the pairs in the given order. *)
Definition render (pairs : list (string * string)) : string :=
  String.concat " " (pair_tokens pairs).

(** The configuration record of [example]. *)
Definition example_record : gmap string pyval :=
  {[ "margin_upper" := VFloat (Fin 5);
     "margin_lower" := VFloat (Fin 10);
     "colour_upper" := VStr "green";
     "colour_lower" := VStr "red";
     "majority_percentage" := VFloat (Fin 10);
     "formatting_option" := VStr "colour_both";
     "row_offset" := VInt 1;
     "column_offset" := VInt 0 ]}.

Definition required_keys : list string := ["M"; "m"; "C"; "c"; "p"; "s"; "o"; "O"].

(** The option a key sets. *)
Definition option_name (key : string) : string :=
  if String.eqb key "M" then "margin_upper"
  else if String.eqb key "m" then "margin_lower"
  else if String.eqb key "C" then "colour_upper"
  else if String.eqb key "c" then "colour_lower"
  else if String.eqb key "p" then "majority_percentage"
  else if String.eqb key "s" then "formatting_option"
  else if String.eqb key "o" then "row_offset"
  else if String.eqb key "O" then "column_offset"
  else "".

(** The value [example] gives to the option of a key. *)
Definition example_value (key : string) : pyval :=
  if String.eqb key "M" then VFloat (Fin 5)
  else if String.eqb key "m" then VFloat (Fin 10)
  else if String.eqb key "C" then VStr "green"
  else if String.eqb key "c" then VStr "red"
  else if String.eqb key "p" then VFloat (Fin 10)
  else if String.eqb key "s" then VStr "colour_both"
  else if String.eqb key "o" then VInt 1
  else VInt 0.

(** The dict entry a pair of [example] sets. *)
Definition example_entry (kv : string * string) : string * pyval :=
  (option_name kv.1, example_value kv.1).

(** A token: no whitespace inside, and not empty. *)
Fixpoint no_space (t : string) : bool :=
  match t with
  | EmptyString => true
  | String a t' => negb (PyStr.is_space a) && no_space t'
  end.

Definition is_token (t : string) : bool :=
  negb (String.eqb t "") && no_space t.








End Instr.

(** ** Sample data *)

Module Samples.

Import Pandas ExcelModifier.
Local Open Scope string_scope.

(** A sheet with one numeric column, one column of text and five rows. *)
Definition scores : DataFrame :=
  {| Pandas.shape0 := 5;
     Pandas.columns :=
       [(Simple "score", NumericSeries [Fin 10; Fin 20; Fin 30; Fin 40; Fin 100]);
        (Simple "name", ObjectSeries [PStr "a"; PStr "b"; PStr "c"; PStr "d"; PStr "e"])] |}.

(** A numeric column with a missing value. *)
Definition gaps : DataFrame :=
  {| Pandas.shape0 := 3;
     Pandas.columns := [(Simple "score", NumericSeries [Fin 1; NaN; Fin 3])] |}.

Definition blank_book : Writer :=
  {| Xlsx.book_formats := []; Xlsx.sheets := {[ "Sheet1" := [] ]} |}.

Definition modifier0 : modifier :=
  {| workbook_writer := blank_book; sheets_to_modify := [("Sheet1", scores)] |}.


End Samples.

Ltac solve_elem :=
  repeat first [apply list_elem_of_here | apply list_elem_of_further].

(** ** The remaining methods of [ExcelModifier] *)

Module Lifecycle.

Import Pandas ExcelModifier.

(** Lines 17-19: a new object has the writer and no sheet to modify. *)
Definition __init__ (writer : Writer) : modifier :=
  {| workbook_writer := writer; sheets_to_modify := [] |}.

(** Lines 27-36.  The argument is stored as it is; it is the dict from sheet
    name to frame that the class documents for the attribute and that
    [colourize_columns] and [colourize_all] iterate with [items()]. *)
Definition set_sheets_to_modify (sheet_names : list (string * DataFrame)) : M unit :=
  fun self =>
    (ok tt, {| workbook_writer := workbook_writer self;
               sheets_to_modify := sheet_names |}).

(** Lines 420-426.  [worksheet.autofit()] sets column widths, which the
    log of a sheet does not record: the method is given by its outcome
    and the sheets on which [autofit] was called, in order.  The loop runs
    over the keys of [sheets_to_modify]; the subscript
    [self.workbook_writer.sheets[sheet_name]] raises [KeyError] for a name
    the writer does not have. *)
Fixpoint autofit_each (writer : Writer) (names : list string)
    : result unit * list string :=
  match names with
  | [] => (ok tt, [])
  | sheet_name :: rest =>
      match Xlsx.sheets writer !! sheet_name with
      | None => (raise KeyError, [])
      | Some _ =>
          let '(r, fitted) := autofit_each writer rest in
          (r, sheet_name :: fitted)
      end
  end.

Definition autofit_sheets (self : modifier) : result unit * list string :=
  autofit_each (workbook_writer self) (sheets_to_modify self).*1.

End Lifecycle.

(** ** What the parser can put into its dict *)

Module Options.

Import ExcelModifier.
Local Open Scope string_scope.

(** An entry of the dict has one of the eight option names and a value of
    the kind the parser stores under that name. *)
Definition well_typed_entry (name : string) (v : pyval) : Prop :=
  (name ∈ ["margin_upper"; "margin_lower"; "majority_percentage"]
   /\ exists x, v = VFloat x)
  \/ (name ∈ ["colour_upper"; "colour_lower"]
      /\ (v = VStr "red" \/ v = VStr "green"))
  \/ (name = "formatting_option"
      /\ (v = VStr "colour_upper" \/ v = VStr "colour_lower"
          \/ v = VStr "colour_both"))
  \/ (name ∈ ["row_offset"; "column_offset"] /\ exists z, v = VInt z).

Definition well_typed (d : gmap string pyval) : Prop :=
  forall name v, d !! name = Some v -> well_typed_entry name v.


End Options.


(** A percentage the quantile computation accepts: a number in [0, 100]. *)
Definition valid_percentage (x : number) : Prop :=
  exists q, x = Fin q /\ 0 <= q <= 100.

(** What a call may have done to the object: [sheets_to_modify] is as it
    was, the formats of the book were only added to, no sheet was created or
    removed, every log was only appended to, and only the logs of the sheets
    named in [allowed] can have grown. *)
Definition extends (allowed : list string)
    (self self' : ExcelModifier.modifier) : Prop :=
  ExcelModifier.sheets_to_modify self' = ExcelModifier.sheets_to_modify self
  /\ Xlsx.book_formats (ExcelModifier.workbook_writer self)
     `prefix_of` Xlsx.book_formats (ExcelModifier.workbook_writer self')
  /\ forall name,
       match Xlsx.sheets (ExcelModifier.workbook_writer self) !! name with
       | Some log =>
           exists ws,
             Xlsx.sheets (ExcelModifier.workbook_writer self') !! name
             = Some (log ++ ws)
             /\ (name ∉ allowed -> ws = [])
       | None => Xlsx.sheets (ExcelModifier.workbook_writer self') !! name = None
       end.

(** The directives of a log that address the cell [(row, col)]. *)
Definition written_at (row col : Z) (ws : list directive) : list directive :=
  List.filter (fun w => (Xlsx.w_row w =? row)%Z && (Xlsx.w_col w =? col)%Z) ws.

(** Membership in a list of distinct literals: refute [x ∈ l]. *)
Ltac elem_contra H :=
  exfalso;
  repeat (apply elem_of_cons in H as [H|H]; [discriminate H|]);
  by apply elem_of_nil in H.
(** * Properties *)

Module NumFacts.

Import Num.



Lemma eqb_eq x y : eqb x y = true <-> (exists a b, x = Fin a /\ y = Fin b /\ a == b).
Proof.
  destruct x as [a|], y as [b|]; simpl.
  - rewrite Qeq_bool_iff. split.
    + intros H. exists a, b. auto.
    + intros (a' & b' & Ha & Hb & H). congruence.
  - split; [discriminate | intros (? & ? & ? & ? & ?); discriminate].
  - split; [discriminate | intros (? & ? & ? & ? & ?); discriminate].
  - split; [discriminate | intros (? & ? & ? & ? & ?); discriminate].
Qed.

Lemma nan_leb_l y : leb NaN y = false.
Proof. reflexivity. Qed.

Lemma nan_leb_r x : leb x NaN = false.
Proof. by destruct x. Qed.

Lemma nan_ltb_l y : ltb NaN y = false.
Proof. reflexivity. Qed.

Lemma nan_ltb_r x : ltb x NaN = false.
Proof. by destruct x. Qed.

Lemma nan_geb_l y : geb NaN y = false.
Proof. by destruct y. Qed.

End NumFacts.

Module PandasFacts.

Import Pandas.

Lemma insert_sorted_perm x l : Permutation (insert_sorted x l) (x :: l).
Proof.
  induction l as [|y l IH]; simpl; [done|].
  destruct (Qle_bool x y); [done|].
  rewrite IH. apply perm_swap.
Qed.


Lemma insert_sorted_sorted x l :
  StronglySorted Qle l -> StronglySorted Qle (insert_sorted x l).
Proof.
  induction 1 as [|y l Hs IH Hall]; simpl.
  - repeat constructor.
  - destruct (Qle_bool x y) eqn:Hxy.
    + apply Qle_bool_iff in Hxy. constructor; [by constructor|].
      constructor; [done|].
      eapply Forall_impl; [exact Hall|]. intros z Hz. simpl in Hz.
      by apply Qle_trans with y.
    + constructor; [done|].
      rewrite insert_sorted_perm. constructor; [|done].
      apply Qlt_le_weak, Qnot_le_lt. intros Hle.
      apply Qle_bool_iff in Hle. congruence.
Qed.

Lemma sort_sorted l : StronglySorted Qle (sort l).
Proof.
  induction l as [|x l IH]; simpl; [constructor|].
  by apply insert_sorted_sorted.
Qed.

(** Sorting a sorted column changes nothing. *)
Lemma sort_of_sorted l : StronglySorted Qle l -> sort l = l.
Proof.
  induction 1 as [|x l Hs IH Hall]; simpl; [done|].
  rewrite IH. destruct l as [|y l]; simpl; [done|].
  apply Forall_cons in Hall as [Hxy _].
  apply Qle_bool_iff in Hxy. by rewrite Hxy.
Qed.

Lemma sort_idempotent l : sort (sort l) = sort l.
Proof. apply sort_of_sorted, sort_sorted. Qed.

Lemma dropna_app xs ys : dropna (xs ++ ys) = dropna xs ++ dropna ys.
Proof.
  induction xs as [|[q|] xs IH]; simpl; [done| |done].
  by rewrite IH.
Qed.

Lemma dropna_Fin l : dropna (map Fin l) = l.
Proof. induction l as [|q l IH]; simpl; [done|]. by rewrite IH. Qed.

Lemma dropna_nans xs : dropna (List.filter Num.is_nan xs) = [].
Proof. induction xs as [|[q|] xs IH]; simpl; done. Qed.

Lemma dropna_sort_values xs : dropna (sort_values xs) = sort (dropna xs).
Proof.
  unfold sort_values.
  by rewrite dropna_app, dropna_Fin, dropna_nans, app_nil_r.
Qed.

(** [quantile] does not depend on the column being sorted beforehand. *)
Lemma quantile_sort_values xs q : quantile (sort_values xs) q = quantile xs q.
Proof. unfold quantile. by rewrite dropna_sort_values, sort_idempotent. Qed.


Lemma foldl_Qmax_elem q qs : foldl Qmax q qs ∈ q :: qs.
Proof.
  revert q. induction qs as [|x qs IH]; intros q; simpl; [by left|].
  specialize (IH (Qmax q x)).
  apply elem_of_cons in IH as [Heq|Hin].
  - rewrite Heq. unfold Qmax, GenericMinMax.gmax.
    destruct (q ?= x); [by left | right; by left | by left].
  - right. by right.
Qed.

Lemma foldl_Qmax_ge q qs : q <= foldl Qmax q qs.
Proof.
  revert q. induction qs as [|x qs IH]; intros q; simpl; [apply Qle_refl|].
  eapply Qle_trans; [|apply IH]. apply Q.le_max_l.
Qed.

Lemma foldl_Qmax_upper q qs x : x ∈ q :: qs -> x <= foldl Qmax q qs.
Proof.
  revert q. induction qs as [|y qs IH]; intros q Hx; simpl.
  - apply list_elem_of_singleton in Hx as ->. apply Qle_refl.
  - apply elem_of_cons in Hx as [->|Hx].
    + eapply Qle_trans; [apply (Q.le_max_l _ y)|apply foldl_Qmax_ge].
    + apply elem_of_cons in Hx as [->|Hx].
      * eapply Qle_trans; [apply (Q.le_max_r q)|apply foldl_Qmax_ge].
      * apply IH. by right.
Qed.

Lemma foldl_Qmin_elem q qs : foldl Qmin q qs ∈ q :: qs.
Proof.
  revert q. induction qs as [|x qs IH]; intros q; simpl; [by left|].
  specialize (IH (Qmin q x)).
  apply elem_of_cons in IH as [Heq|Hin].
  - rewrite Heq. unfold Qmin, GenericMinMax.gmin.
    destruct (q ?= x); [by left | by left | right; by left].
  - right. by right.
Qed.

Lemma foldl_Qmin_le q qs : foldl Qmin q qs <= q.
Proof.
  revert q. induction qs as [|x qs IH]; intros q; simpl; [apply Qle_refl|].
  eapply Qle_trans; [apply IH|]. apply Q.le_min_l.
Qed.

Lemma foldl_Qmin_lower q qs x : x ∈ q :: qs -> foldl Qmin q qs <= x.
Proof.
  revert q. induction qs as [|y qs IH]; intros q Hx; simpl.
  - apply list_elem_of_singleton in Hx as ->. apply Qle_refl.
  - apply elem_of_cons in Hx as [->|Hx].
    + eapply Qle_trans; [apply foldl_Qmin_le|apply (Q.le_min_l _ y)].
    + apply elem_of_cons in Hx as [->|Hx].
      * eapply Qle_trans; [apply foldl_Qmin_le|apply (Q.le_min_r q)].
      * apply IH. by right.
Qed.








End PandasFacts.

Module TraceFacts.

Import Pandas ExcelModifier Trace.

Lemma push_nil worksheet self : push worksheet [] self = self.
Proof.
  destruct self as [[fs sh] items]. unfold push. simpl. do 2 f_equal.
  apply alter_id. intros log _. apply app_nil_r.
Qed.

Lemma push_push worksheet ws1 ws2 self :
  push worksheet ws2 (push worksheet ws1 self) = push worksheet (ws1 ++ ws2) self.
Proof.
  unfold push. simpl. do 2 f_equal.
  rewrite alter_alter_eq. apply alter_ext.
  intros log _. simpl. by rewrite <- app_assoc.
Qed.

Lemma appends_ret {A} worksheet (x : A) : appends worksheet (mret x) (ok x) [].
Proof. intros self. by rewrite push_nil. Qed.

Lemma appends_lift {A} worksheet (r : result A) : appends worksheet (lift r) r [].
Proof. intros self. by rewrite push_nil. Qed.

Lemma appends_write worksheet row col v f :
  appends worksheet (worksheet_write worksheet row col v f) (ok tt)
    [{| Xlsx.w_row := row; Xlsx.w_col := col; Xlsx.w_value := v; Xlsx.w_format := f |}].
Proof. intros self. reflexivity. Qed.

Lemma appends_bind {A B} worksheet (m : M A) (f : A -> M B) x ws1 r ws2 :
  appends worksheet m (ok x) ws1 ->
  appends worksheet (f x) r ws2 ->
  appends worksheet (m ≫= f) r (ws1 ++ ws2).
Proof.
  intros H1 H2 self. unfold mbind, M_bind. rewrite H1. simpl.
  by rewrite H2, push_push.
Qed.

Lemma appends_bind_raise {A B} worksheet (m : M A) (f : A -> M B) e ws :
  appends worksheet m (raise e) ws ->
  appends worksheet (m ≫= f) (raise e) ws.
Proof. intros H1 self. unfold mbind, M_bind. by rewrite H1. Qed.

Lemma lift_bind {A B} (r : result A) (f : A -> M B) self :
  (lift r ≫= f) self = match r with inl e => (inl e, self) | inr x => f x self end.
Proof. by destruct r. Qed.

Lemma appends_lift_bind {A B} worksheet (x : A) (f : A -> M B) r ws :
  appends worksheet (f x) r ws -> appends worksheet (lift (ok x) ≫= f) r ws.
Proof. intros H self. rewrite lift_bind. apply H. Qed.

Lemma runs_for_each {A} worksheet (body : A -> M unit) (T : A -> list directive) l :
  (forall x, x ∈ l -> runs worksheet (body x) (T x)) ->
  runs worksheet (for_each l body) (flat_map T l).
Proof.
  induction l as [|x l IH]; intros Hb; simpl.
  - exists (ok tt), []. split; [apply appends_ret | done].
  - destruct (Hb x) as (r & ws & Hrun & Hpre & Hok); [by left |].
    destruct IH as (r' & ws' & Hrun' & Hpre' & Hok').
    { intros y Hy. apply Hb. by right. }
    destruct r as [e | []].
    + exists (raise e), ws. split; [by apply appends_bind_raise |].
      split; [by apply prefix_app_r | discriminate].
    + specialize (Hok eq_refl). subst ws.
      exists r', (T x ++ ws'). split; [by eapply appends_bind |].
      split; [by apply prefix_app | intros Hr; by rewrite Hok'].
Qed.

Section rows.

Variables (worksheet : string) (sheet_data : DataFrame)
          (formatting_option : string)
          (upper_colour_format lower_colour_format : Format)
          (row_offset column_offset : Z)
          (bounds : gmap nat (number * number)).

Lemma row_body_numeric column_pos largest smallest umaj lmaj row_pos v b :
  iat sheet_data row_pos column_pos = Some (PNum v) ->
  bounds !! column_pos = Some b ->
  appends worksheet
    (row_body worksheet sheet_data formatting_option upper_colour_format
       lower_colour_format row_offset column_offset bounds column_pos
       largest smallest umaj lmaj row_pos)
    (ok tt)
    (cell_directives formatting_option upper_colour_format lower_colour_format
       row_offset column_offset b largest smallest umaj lmaj column_pos row_pos v).
Proof.
  intros Hiat Hb. unfold row_body, cell_directives.
  rewrite Hiat. simpl.
  assert (Hchain : forall R1 R2 a (proj : number * number -> number) f,
    appends worksheet
      (lift (chained R1 R2 a (PNum v)
               (subscript bounds column_pos ≫= fun b => ok (proj b)))
       ≫= fun c : bool =>
            if c then worksheet_write worksheet (row_offset + Z.of_nat row_pos)
                        (column_offset + Z.of_nat column_pos) (PNum v) f
            else mret tt)
      (ok tt)
      (if R1 a v && R2 v (proj b)
       then [mk_directive row_offset column_offset row_pos column_pos (PNum v) f]
       else [])).
  { intros R1 R2 a proj f. unfold chained, subscript. rewrite Hb. simpl.
    destruct (R1 a v); simpl; [destruct (R2 v (proj b)); simpl|].
    - apply appends_write.
    - apply (appends_ret worksheet tt).
    - apply (appends_ret worksheet tt). }
  eapply (appends_bind _ _ _ tt).
  - destruct (bool_decide (formatting_option ∈ upper_modes)); simpl.
    + destruct umaj; apply (Hchain _ _ _ fst).
    + apply (appends_ret worksheet tt).
  - destruct (bool_decide (formatting_option ∈ lower_modes)); simpl.
    + destruct lmaj; apply (Hchain _ _ _ snd).
    + apply (appends_ret worksheet tt).
Qed.

Lemma runs_nil_raise {A} (m : M A) (f : A -> M unit) e T :
  appends worksheet m (raise e) [] -> runs worksheet (m ≫= f) T.
Proof.
  intros H. exists (raise e), []. split; [by apply appends_bind_raise|].
  split; [apply prefix_nil | discriminate].
Qed.

Lemma runs_lift_bind {A} (r : result A) (f : A -> M unit) T :
  (forall x, r = ok x -> runs worksheet (f x) T) ->
  runs worksheet (lift r ≫= f) T.
Proof.
  intros H. destruct r as [e|x].
  - eapply runs_nil_raise. apply appends_lift.
  - destruct (H x eq_refl) as (r & ws & Hrun & Hpre & Hok).
    exists r, ws. split; [|done].
    intros self. rewrite lift_bind. apply Hrun.
Qed.

Lemma runs_exact (m : M unit) r T :
  appends worksheet m r T -> runs worksheet m T.
Proof. intros H. exists r, T. done. Qed.

Lemma row_body_runs column_pos largest smallest umaj lmaj row_pos b :
  bounds !! column_pos = Some b ->
  runs worksheet
    (row_body worksheet sheet_data formatting_option upper_colour_format
       lower_colour_format row_offset column_offset bounds column_pos
       largest smallest umaj lmaj row_pos)
    (cell_trace sheet_data formatting_option upper_colour_format
       lower_colour_format row_offset column_offset b largest smallest
       umaj lmaj column_pos row_pos).
Proof.
  intros Hb. unfold cell_trace.
  destruct (iat sheet_data row_pos column_pos) as [[v|s]|] eqn:Hiat.
  - eapply runs_exact. by apply row_body_numeric.
  - unfold row_body. rewrite Hiat.
    apply runs_lift_bind. intros cur [= <-]. simpl.
    destruct (negb (String.eqb s "nan")).
    + destruct (bool_decide (formatting_option ∈ upper_modes)).
      * eapply runs_nil_raise.
        destruct umaj; eapply appends_bind_raise; apply appends_lift.
      * destruct (bool_decide (formatting_option ∈ lower_modes)).
        -- exists (raise TypeError), []. split; [|done].
           apply (appends_bind _ _ _ tt [] _ []); [apply (appends_ret worksheet tt)|].
           destruct lmaj; eapply appends_bind_raise; apply appends_lift.
        -- eapply runs_exact.
           apply (appends_bind _ _ _ tt [] _ []); apply (appends_ret worksheet tt).
    + eapply runs_exact. apply (appends_ret worksheet tt).
  - unfold row_body. rewrite Hiat.
    eapply runs_nil_raise. apply appends_lift.
Qed.

Lemma column_body_runs majority_percentage column_pos b :
  bounds !! column_pos = Some b ->
  runs worksheet
    (column_body worksheet sheet_data formatting_option upper_colour_format
       lower_colour_format row_offset column_offset bounds
       majority_percentage column_pos)
    (column_trace sheet_data formatting_option upper_colour_format
       lower_colour_format row_offset column_offset b majority_percentage
       column_pos).
Proof.
  intros Hb. unfold column_body, column_trace, values_at, column_at.
  apply runs_lift_bind. intros lbl Hlbl.
  apply runs_lift_bind. intros series Hseries.
  apply runs_lift_bind. intros current_column Hcol.
  destruct (columns_tolist sheet_data !! column_pos) as [lbl'|]; [|done].
  injection Hlbl as ->. simpl.
  destruct (getitem sheet_data lbl) as [series'|]; [|done].
  injection Hseries as ->.
  destruct series as [values|values]; [|done].
  injection Hcol as ->.
  apply runs_for_each. intros row_pos _. by apply row_body_runs.
Qed.

End rows.

Lemma compute_bounds_lookup sheet_data upper_bound lower_bound l :
  forall d d',
    foldM (fun (d : gmap nat (number * number)) column_index =>
             lbl ← of_option IndexError (columns_tolist sheet_data !! column_index);
             series ← of_option KeyError (getitem sheet_data lbl);
             b ← _calculate_bounds series upper_bound lower_bound;
             ok (<[column_index := b]> d)) d l = ok d' ->
    forall c, c ∈ l ->
      d' !! c = Some (bounds_at sheet_data upper_bound lower_bound c)
      /\ exists s, column_at sheet_data c = Some s
                   /\ _calculate_bounds s upper_bound lower_bound
                      = ok (bounds_at sheet_data upper_bound lower_bound c).
Proof.
  induction l as [|i l IH]; intros d d' Hfold c Hc.
  - by apply elem_of_nil in Hc.
  - simpl in Hfold. unfold bounds_at, column_at in *.
    destruct (columns_tolist sheet_data !! i) as [lbl|] eqn:Hl; [|done].
    simpl in Hfold.
    destruct (getitem sheet_data lbl) as [s|] eqn:Hs; [|done].
    simpl in Hfold.
    destruct (_calculate_bounds s upper_bound lower_bound) as [e|b] eqn:Hcb; [done|].
    simpl in Hfold.
    destruct (decide (c ∈ l)) as [Hin|Hnin].
    + by apply (IH _ _ Hfold).
    + apply elem_of_cons in Hc as [->|Hc]; [|done].
      rewrite Hl. simpl. rewrite Hs, Hcb. split; [|by exists s].
      clear IH Hl Hs Hcb. revert d Hfold.
      induction l as [|j l IH]; intros d Hfold.
      * injection Hfold as <-. apply lookup_insert_eq.
      * apply not_elem_of_cons in Hnin as [Hne Hnin]. simpl in Hfold.
        destruct (columns_tolist sheet_data !! j) as [lbl'|]; [|done].
        simpl in Hfold.
        destruct (getitem sheet_data lbl') as [s'|]; [|done].
        simpl in Hfold.
        destruct (_calculate_bounds s' upper_bound lower_bound) as [e|b']; [done|].
        simpl in Hfold.
        rewrite insert_insert_ne in Hfold by done.
        by apply (IH Hnin _ Hfold).
Qed.

(** Every run of the formatting pass appends to the log of its sheet an
    initial part of [pass_trace], and all of it when the pass returns. *)
Lemma colourize_columns_run sheet_name sheet_data columns_to_format
    formatting_option margin_options colour_options majority_percentage
    write_offsets multi_index self :
  exists r ws,
    _colourize_columns sheet_name sheet_data columns_to_format formatting_option
      margin_options colour_options majority_percentage write_offsets
      multi_index self
    = (r, push sheet_name ws (register_formats colour_options self))
    /\ ws `prefix_of`
         pass_trace sheet_data formatting_option
           {| Xlsx.bg_color := colour_code colour_options.1 |}
           {| Xlsx.bg_color := colour_code colour_options.2 |}
           write_offsets.1 write_offsets.2 columns_to_format margin_options
           majority_percentage multi_index
    /\ (r = ok tt ->
        ws = pass_trace sheet_data formatting_option
               {| Xlsx.bg_color := colour_code colour_options.1 |}
               {| Xlsx.bg_color := colour_code colour_options.2 |}
               write_offsets.1 write_offsets.2 columns_to_format margin_options
               majority_percentage multi_index
        /\ exists bounds,
             compute_bounds sheet_data margin_options.1 margin_options.2
               (_get_indices_to_edit sheet_data columns_to_format multi_index)
             = ok bounds).
Proof.
  destruct margin_options as [upper_bound lower_bound].
  destruct colour_options as [upper_colour lower_colour].
  destruct write_offsets as [row_offset column_offset].
  unfold _colourize_columns, pass_trace. simpl.
  unfold mbind at 1 2, M_bind at 1 2. simpl.
  unfold register_formats. simpl.
  set (self1 := {| workbook_writer := _; sheets_to_modify := _ |}).
  clearbody self1.
  rewrite lift_bind.
  destruct (compute_bounds _ _ _ _) as [e|bounds] eqn:Hbounds.
  { exists (raise e), []. rewrite push_nil. split; [reflexivity|].
    split; [apply prefix_nil | discriminate]. }
  unfold mbind, M_bind, get_worksheet.
  destruct (Xlsx.sheets (workbook_writer self1) !! sheet_name) eqn:Hsheet.
  2:{ exists (raise KeyError), []. rewrite push_nil. split; [reflexivity|].
      split; [apply prefix_nil | discriminate]. }
  simpl.
  destruct (runs_for_each sheet_name
    (column_body sheet_name sheet_data formatting_option
       {| Xlsx.bg_color := colour_code upper_colour |}
       {| Xlsx.bg_color := colour_code lower_colour |}
       row_offset column_offset bounds majority_percentage)
    (fun column_pos =>
       column_trace sheet_data formatting_option
         {| Xlsx.bg_color := colour_code upper_colour |}
         {| Xlsx.bg_color := colour_code lower_colour |}
         row_offset column_offset
         (bounds_at sheet_data upper_bound lower_bound column_pos)
         majority_percentage column_pos)
    (_get_indices_to_edit sheet_data columns_to_format multi_index))
    as (r & ws & Hrun & Hpre & Hok).
  { intros c Hc. apply column_body_runs.
    by apply (compute_bounds_lookup _ _ _ _ _ _ Hbounds). }
  exists r, ws. split; [apply Hrun |].
  split; [done|]. intros Hr. split; [by apply Hok | by exists bounds].
Qed.

Lemma cell_directives_elem formatting_option fU fL row_offset column_offset
    b largest smallest umaj lmaj column_pos row_pos v w :
  w ∈ cell_directives formatting_option fU fL row_offset column_offset b
        largest smallest umaj lmaj column_pos row_pos v ->
  exists q f,
    v = Fin q
    /\ w = mk_directive row_offset column_offset row_pos column_pos (PNum v) f
    /\ (f = fU \/ f = fL).
Proof.
  unfold cell_directives. rewrite elem_of_app. intros [Hw|Hw].
  - destruct (bool_decide _ && _ && Num.geb v b.1) eqn:Hc;
      [|by apply elem_of_nil in Hw].
    apply list_elem_of_singleton in Hw.
    apply andb_true_iff in Hc as [_ Hc].
    destruct v as [q|]; [|by rewrite NumFacts.nan_geb_l in Hc].
    exists q, fU. auto.
  - destruct (bool_decide _ && _ && Num.leb v b.2) eqn:Hc;
      [|by apply elem_of_nil in Hw].
    apply list_elem_of_singleton in Hw.
    apply andb_true_iff in Hc as [_ Hc].
    destruct v as [q|]; [|done].
    exists q, fL. auto.
Qed.

(** Every directive of a complete pass is the write of a numeric cell of a
    selected column, at the shifted position, in one of the two formats. *)
Lemma pass_trace_elem sheet_data formatting_option fU fL row_offset
    column_offset columns_to_format margin_options majority_percentage
    multi_index w :
  w ∈ pass_trace sheet_data formatting_option fU fL row_offset column_offset
        columns_to_format margin_options majority_percentage multi_index ->
  exists column_pos row_pos q f,
    column_pos ∈ _get_indices_to_edit sheet_data columns_to_format multi_index
    /\ (row_pos < shape0 sheet_data)%nat
    /\ iat sheet_data row_pos column_pos = Some (PNum (Fin q))
    /\ w = mk_directive row_offset column_offset row_pos column_pos
             (PNum (Fin q)) f
    /\ (f = fU \/ f = fL).
Proof.
  unfold pass_trace, column_trace.
  rewrite list_elem_of_In, in_flat_map. intros (c & Hc & Hw).
  apply in_flat_map in Hw as (r & Hr & Hw).
  apply in_seq in Hr. unfold cell_trace in Hw.
  destruct (iat sheet_data r c) as [[v|s]|] eqn:Hiat; try by destruct Hw.
  apply list_elem_of_In, cell_directives_elem in Hw as (q & f & -> & -> & Hf).
  exists c, r, q, f. rewrite list_elem_of_In. repeat split; auto. lia.
Qed.

End TraceFacts.

Module ParseFacts.

Import ExcelModifier Instr.
Local Open Scope string_scope.

Lemma append_empty_r (t : string) : t ++ "" = t.
Proof.
  induction t as [|a t IH]; [done|].
  change (String a t ++ "") with (String a (t ++ "")). by rewrite IH.
Qed.

Lemma split_from_app t s :
  no_space t = true ->
  PyStr.split_from (t ++ s) = (t ++ (PyStr.split_from s).1, (PyStr.split_from s).2).
Proof.
  induction t as [|a t IH]; intros Ht.
  - change ("" ++ s) with s. by destruct (PyStr.split_from s).
  - change (String a t ++ s) with (String a (t ++ s)). simpl in *.
    apply andb_true_iff in Ht as [Ha Ht]. rewrite (IH Ht).
    apply negb_true_iff in Ha. by rewrite Ha.
Qed.

Lemma split_from_concat toks :
  Forall (fun t => is_token t = true) toks ->
  PyStr.split_from (String.concat " " toks) = (hd "" toks, tl toks).
Proof.
  induction 1 as [|x toks Hx Htoks IH]; [done|].
  apply andb_true_iff in Hx as [Hne Hx].
  destruct toks as [|y rest].
  - simpl. rewrite <- (append_empty_r x) at 1.
    rewrite split_from_app by done. simpl. by rewrite append_empty_r.
  - change (String.concat " " (x :: y :: rest))
      with (x ++ String " " (String.concat " " (y :: rest))).
    rewrite split_from_app by done.
    change (PyStr.split_from (String " " (String.concat " " (y :: rest))))
      with (let '(tok, toks) := PyStr.split_from (String.concat " " (y :: rest)) in
            (EmptyString, PyStr.cons_token tok toks)).
    rewrite IH. simpl. rewrite append_empty_r.
    apply Forall_cons in Htoks as [Hy _].
    apply andb_true_iff in Hy as [Hy _]. apply negb_true_iff in Hy.
    unfold PyStr.cons_token. destruct (decide (y = "")) as [->|]; done.
Qed.

(** Splitting the tokens joined by single spaces gives them back. *)
Lemma split_concat toks :
  Forall (fun t => is_token t = true) toks ->
  PyStr.split (String.concat " " toks) = toks.
Proof.
  intros Htoks. unfold PyStr.split. rewrite split_from_concat by done.
  destruct Htoks as [|x toks Hx _]; [done|]. simpl.
  apply andb_true_iff in Hx as [Hx _]. apply negb_true_iff in Hx.
  unfold PyStr.cons_token. destruct (decide (x = "")) as [->|]; done.
Qed.

Lemma foldM_cons {A S} (f : S -> A -> result S) s x l :
  foldM f s (x :: l) = (f s x ≫= fun s' => foldM f s' l).
Proof. reflexivity. Qed.

Lemma bind_ok {A B} (x : A) (f : A -> result B) : (ok x ≫= f) = f x.
Proof. reflexivity. Qed.

Lemma parse_step_at toks d i cur :
  toks !! i = Some cur ->
  parse_step toks d i
  = if PyStr.is_substring cur POSSIBLE_INSTRUCTIONS then
      of_option IndexError (toks !! (i + 1)%nat)
      ≫= fun next_item => apply_instruction cur next_item d
    else ok d.
Proof. intros H. unfold parse_step. by rewrite H. Qed.

Lemma example_pair_facts kv :
  kv ∈ example_pairs ->
  is_token kv.1 = true /\ is_token kv.2 = true
  /\ PyStr.is_substring kv.1 POSSIBLE_INSTRUCTIONS = true
  /\ PyStr.is_substring kv.2 POSSIBLE_INSTRUCTIONS = false
  /\ forall d, apply_instruction kv.1 kv.2 d
               = ok (<[(example_entry kv).1 := (example_entry kv).2]> d).
Proof.
  unfold example_pairs. intros H.
  repeat (apply elem_of_cons in H as [->|H]); [..|by apply elem_of_nil in H];
    (split; [reflexivity|]); (split; [reflexivity|]);
    (split; [reflexivity|]); (split; [reflexivity|]); intros d; reflexivity.
Qed.

Lemma example_entries_record :
  list_to_map (map example_entry example_pairs) = example_record.
Proof.
  unfold example_record. rewrite <- insert_empty. reflexivity.
Qed.

(** The loop over the tokens of pairs of the example performs one insertion
    per pair, in order. *)
Lemma parse_pairs pairs :
  Forall (fun kv => kv ∈ example_pairs) pairs ->
  forall pre d,
    foldM (parse_step (pre ++ pair_tokens pairs)) d
          (seq (length pre) (length (pair_tokens pairs)))
    = ok (foldl (fun d e => <[e.1 := e.2]> d) d (map example_entry pairs)).
Proof.
  induction 1 as [|[k v] pairs Hkv Hpairs IH]; intros pre d; [done|].
  destruct (example_pair_facts _ Hkv) as (_ & _ & Hk & Hv & Hstep).
  cbn [fst snd] in Hk, Hv, Hstep.
  change (pair_tokens ((k, v) :: pairs)) with (k :: v :: pair_tokens pairs).
  cbn [length seq]. rewrite !foldM_cons.
  assert ((pre ++ k :: v :: pair_tokens pairs)%list !! length pre = Some k) as Hi.
  { by rewrite list_lookup_middle. }
  assert ((pre ++ k :: v :: pair_tokens pairs)%list !! S (length pre) = Some v) as Hi'.
  { rewrite (app_assoc pre [k] _ :
               (pre ++ k :: v :: _ = (pre ++ [k]) ++ v :: _)%list).
    rewrite list_lookup_middle; [done|]. rewrite length_app. simpl. lia. }
  rewrite (parse_step_at _ _ _ _ Hi), Hk.
  replace (length pre + 1)%nat with (S (length pre)) by lia.
  rewrite Hi'. cbn [of_option]. rewrite !bind_ok, Hstep, bind_ok.
  rewrite foldM_cons, (parse_step_at _ _ _ _ Hi'), Hv, bind_ok.
  specialize (IH (pre ++ [k; v])%list).
  rewrite <- app_assoc, length_app in IH. simpl in IH.
  replace (length pre + 2)%nat with (S (S (length pre))) in IH by lia.
  apply IH.
Qed.

Lemma foldl_insert_list_to_map {V} (es : list (string * V)) (d : gmap string V) :
  foldl (fun d e => <[e.1 := e.2]> d) d es = list_to_map (reverse es) ∪ d.
Proof.
  revert d. induction es as [|[k v] es IH]; intros d; simpl.
  - by rewrite (left_id_L ∅ (∪)).
  - rewrite IH, reverse_cons, list_to_map_app. simpl.
    rewrite insert_empty, <- (assoc_L (∪)). f_equal.
    by rewrite <- insert_union_singleton_l.
Qed.

Lemma parse_render pairs :
  pairs ≡ₚ example_pairs ->
  _parse_instructions (render pairs) = ok example_record.
Proof.
  intros Hperm.
  assert (Forall (fun kv => kv ∈ example_pairs) pairs) as Hall.
  { apply Forall_forall. intros kv Hkv. by rewrite <- Hperm. }
  unfold _parse_instructions, render. fold (pair_tokens pairs).
  rewrite split_concat.
  2:{ clear Hperm. induction Hall as [|kv pairs Hkv _ IH]; [constructor|].
      destruct (example_pair_facts _ Hkv) as (Hk & Hv & _).
      simpl. by repeat constructor. }
  rewrite (parse_pairs pairs Hall []). f_equal.
  rewrite foldl_insert_list_to_map, (right_id_L ∅ (∪)).
  rewrite <- example_entries_record.
  apply list_to_map_proper.
  - rewrite reverse_Permutation, Hperm.
    apply (bool_decide_unpack _). by vm_compute.
  - by rewrite reverse_Permutation, Hperm.
Qed.

(** *** Failing instruction strings *)

Lemma required_key_cases k :
  k ∈ required_keys ->
  k = "M" \/ k = "m" \/ k = "C" \/ k = "c" \/ k = "p" \/ k = "s" \/ k = "o" \/ k = "O".
Proof.
  unfold required_keys. rewrite !elem_of_cons, elem_of_nil. tauto.
Qed.






Lemma foldM_invariant {A S} (f : S -> A -> result S) (P : S -> Prop) l :
  (forall s x s', x ∈ l -> P s -> f s x = ok s' -> P s') ->
  forall s s', P s -> foldM f s l = ok s' -> P s'.
Proof.
  induction l as [|y l IH]; intros Hf s s' Hs Hfold.
  - by injection Hfold as <-.
  - rewrite foldM_cons in Hfold.
    destruct (f s y) as [e|s1] eqn:Hy; [done|].
    apply (IH (fun s x s' Hx => Hf s x s' (list_elem_of_further _ _ _ Hx)) s1);
      [|done].
    apply (Hf s y); [by left | done | done].
Qed.







End ParseFacts.

(** * The claims *)

Import Pandas ExcelModifier Trace.


Lemma upper_modes_spec formatting_option :
  bool_decide (formatting_option ∈ upper_modes) = true
  <-> Spec.mode_includes_upper formatting_option.
Proof.
  rewrite bool_decide_eq_true. unfold upper_modes, Spec.mode_includes_upper.
  set_solver.
Qed.

Lemma lower_modes_spec formatting_option :
  bool_decide (formatting_option ∈ lower_modes) = true
  <-> Spec.mode_includes_lower formatting_option.
Proof.
  rewrite bool_decide_eq_true. unfold lower_modes, Spec.mode_includes_lower.
  set_solver.
Qed.





(** What a pass appends, whatever its outcome: writes of numeric cells of
    selected columns at the shifted positions, in one of the two formats. *)
Lemma pass_directives sheet_name sheet_data columns_to_format
    formatting_option margin_options colour_options majority_percentage
    write_offsets multi_index self :
  exists ws,
    emitted sheet_name self
      (_colourize_columns sheet_name sheet_data columns_to_format
         formatting_option margin_options colour_options majority_percentage
         write_offsets multi_index self).2 ws
    /\ forall w, w ∈ ws ->
         exists row_pos column_pos q,
           column_pos ∈ _get_indices_to_edit sheet_data columns_to_format multi_index
           /\ (row_pos < shape0 sheet_data)%nat
           /\ iat sheet_data row_pos column_pos = Some (PNum (Fin q))
           /\ Xlsx.w_value w = PNum (Fin q)
           /\ Xlsx.w_row w = (write_offsets.1 + Z.of_nat row_pos)%Z
           /\ Xlsx.w_col w = (write_offsets.2 + Z.of_nat column_pos)%Z
           /\ (Xlsx.w_format w = {| Xlsx.bg_color := colour_code colour_options.1 |}
               \/ Xlsx.w_format w = {| Xlsx.bg_color := colour_code colour_options.2 |}).
Proof.
  destruct (TraceFacts.colourize_columns_run sheet_name sheet_data
    columns_to_format formatting_option margin_options colour_options
    majority_percentage write_offsets multi_index self)
    as (r & ws & Hrun & [rest Hpre] & _).
  exists ws. rewrite Hrun. split; [reflexivity|].
  intros w Hw.
  destruct (TraceFacts.pass_trace_elem sheet_data formatting_option
    {| Xlsx.bg_color := colour_code colour_options.1 |}
    {| Xlsx.bg_color := colour_code colour_options.2 |}
    write_offsets.1 write_offsets.2 columns_to_format margin_options
    majority_percentage multi_index w)
    as (c & row & q & f & Hc & Hrow & Hiat & -> & Hf).
  { rewrite Hpre. apply elem_of_app. by left. }
  exists row, c, q. simpl. auto 10.
Qed.



(** C4. A cell of a selected column that holds no number (a missing value
    [NaN], or a non-numeric scalar) is never written: for every mode, bounds,
    extremes, flags and formats the body of the row loop appends nothing at
    such a cell, and no directive appended by the formatting pass targets the
    position of such a cell. *)
Theorem C4_non_numeric_skipped sheet_name sheet_data columns_to_format
    formatting_option margin_options colour_options majority_percentage
    write_offsets multi_index self row_pos column_pos v :
  iat sheet_data row_pos column_pos = Some v ->
  (forall q, v <> PNum (Fin q)) ->
  (forall worksheet mode fU fL row_offset column_offset
          (bounds : gmap nat (number * number)) largest smallest umaj lmaj,
     exists r,
       appends worksheet
         (row_body worksheet sheet_data mode fU fL row_offset column_offset
            bounds column_pos largest smallest umaj lmaj row_pos) r [])
  /\ exists ws,
       emitted sheet_name self
         (_colourize_columns sheet_name sheet_data columns_to_format
            formatting_option margin_options colour_options majority_percentage
            write_offsets multi_index self).2 ws
       /\ forall w, w ∈ ws ->
            ~ (Xlsx.w_row w = (write_offsets.1 + Z.of_nat row_pos)%Z
               /\ Xlsx.w_col w = (write_offsets.2 + Z.of_nat column_pos)%Z).
Proof.
  intros Hiat Hv. split.
  - intros worksheet mode fU fL row_offset column_offset bounds largest smallest
      umaj lmaj.
    unfold row_body. rewrite Hiat.
    match goal with
    | |- exists r, appends _ (lift _ ≫= ?f) r [] =>
        cut (exists r, appends worksheet (f v) r []);
        [intros [r Hr]; exists r; by apply TraceFacts.appends_lift_bind|]
    end.
    cbv beta.
    assert (Hskip : forall (c : bool) R1 R2 a b (k : M unit),
      (forall x, as_number v = ok x -> R1 a x = false) ->
      exists r : result unit,
        appends worksheet
          (lift (chained R1 R2 a v b) ≫= fun c : bool => if c then k else mret tt)
          r []).
    { intros _ R1 R2 a b k HR. unfold chained.
      destruct (as_number v) as [e|x] eqn:Hx; simpl.
      - exists (raise e). apply TraceFacts.appends_bind_raise, TraceFacts.appends_lift.
      - rewrite (HR x eq_refl). exists (ok tt).
        apply (TraceFacts.appends_bind _ _ _ false [] _ []);
          [apply TraceFacts.appends_lift | apply (TraceFacts.appends_ret worksheet tt)]. }
    assert (Hnan : forall x, as_number v = ok x -> x = NaN).
    { intros x Hx. destruct v as [[q|]|s]; simpl in Hx; try done.
      - by destruct (Hv q).
      - by injection Hx as <-. }
    assert (Hpart : forall (mode_on majority : bool) R1 R1' R2 a b (k : M unit),
      R1 a NaN = false -> R1' a NaN = false ->
      exists r : result unit,
        appends worksheet
          (if mode_on then
             if majority
             then lift (chained R1 R2 a v b) ≫= fun c : bool => if c then k else mret tt
             else lift (chained R1' R2 a v b) ≫= fun c : bool => if c then k else mret tt
           else mret tt) r []).
    { intros mode_on majority R1 R1' R2 a b k H1 H1'.
      destruct mode_on; [|exists (ok tt); apply (TraceFacts.appends_ret worksheet tt)].
      destruct majority; apply (Hskip true); intros x Hx;
        rewrite (Hnan x Hx); auto. }
    destruct (ne_str v "nan").
    + destruct (Hpart (bool_decide (mode ∈ upper_modes)) umaj Num.gtb Num.geb Num.geb
                  largest (subscript bounds column_pos ≫= fun b => ok b.1)
                  (worksheet_write worksheet (row_offset + Z.of_nat row_pos)%Z
                     (column_offset + Z.of_nat column_pos)%Z v fU))
        as [[e|[]] Hu]; [by destruct largest | by destruct largest | |].
      * exists (raise e). by apply TraceFacts.appends_bind_raise.
      * destruct (Hpart (bool_decide (mode ∈ lower_modes)) lmaj Num.ltb Num.leb Num.leb
                    smallest (subscript bounds column_pos ≫= fun b => ok b.2)
                    (worksheet_write worksheet (row_offset + Z.of_nat row_pos)%Z
                       (column_offset + Z.of_nat column_pos)%Z v fL))
          as [r Hl]; [by destruct smallest | by destruct smallest |].
        exists r. by apply (TraceFacts.appends_bind _ _ _ tt [] _ []).
    + exists (ok tt). apply (TraceFacts.appends_ret worksheet tt).
  - destruct (pass_directives sheet_name sheet_data columns_to_format
      formatting_option margin_options colour_options majority_percentage
      write_offsets multi_index self) as (ws & Hem & Hws).
    exists ws. split; [done|].
    intros w Hw [Hrow Hcol].
    destruct (Hws w Hw) as (r & c & q & _ & _ & Hiat' & Hval & Hrow' & Hcol').
    assert (r = row_pos) as -> by lia.
    assert (c = column_pos) as -> by lia.
    rewrite Hiat in Hiat'. injection Hiat' as ->. by destruct (Hv q).
Qed.

Lemma C4_non_numeric_skipped_witness :
  iat Samples.gaps 1 0 = Some (PNum NaN)
  /\ exists ws,
       emitted "Sheet1" Samples.modifier0
         (_colourize_columns "Sheet1" Samples.gaps [Simple "score"] "colour_both"
            (Fin 100, Fin 100) ("green", "red")%string (Fin 50) (1, 0)%Z false
            Samples.modifier0).2 ws
       /\ forall w, w ∈ ws ->
            ~ (Xlsx.w_row w = (1 + Z.of_nat 1)%Z /\ Xlsx.w_col w = (0 + Z.of_nat 0)%Z).
Proof.
  split; [reflexivity|].
  apply (C4_non_numeric_skipped "Sheet1" Samples.gaps [Simple "score"]
           "colour_both" (Fin 100, Fin 100) ("green", "red")%string (Fin 50)
           (1, 0)%Z false Samples.modifier0 1%nat 0%nat (PNum NaN)).
  - reflexivity.
  - intros q. discriminate.
Defined.

Lemma selected_NoDup sheet_data columns_to_format multi_index :
  NoDup (_get_indices_to_edit sheet_data columns_to_format multi_index).
Proof.
  unfold _get_indices_to_edit.
  apply NoDup_ListNoDup, List.NoDup_filter, List.seq_NoDup.
Qed.



(** C10. The flag [multi_index] has no effect: with it set or cleared the
    same column indices are selected and the formatting pass, as well as
    [colourize_columns] over all sheets, returns the same result and leaves
    the same object. *)
Theorem C10_multi_index_irrelevant sheet_name sheet_data columns_to_format
    formatting_option margin_options colour_options majority_percentage
    write_offsets instructions self :
  _get_indices_to_edit sheet_data columns_to_format true
  = _get_indices_to_edit sheet_data columns_to_format false
  /\ _colourize_columns sheet_name sheet_data columns_to_format formatting_option
       margin_options colour_options majority_percentage write_offsets true self
     = _colourize_columns sheet_name sheet_data columns_to_format formatting_option
         margin_options colour_options majority_percentage write_offsets false self
  /\ colourize_columns columns_to_format instructions true self
     = colourize_columns columns_to_format instructions false self.
Proof. repeat split. Qed.

Lemma selected_spec sheet_data columns multi_index i :
  i ∈ _get_indices_to_edit sheet_data columns multi_index
  <-> exists lbl series,
        columns_tolist sheet_data !! i = Some lbl
        /\ lbl ∈ columns
        /\ getitem sheet_data lbl = Some series
        /\ is_numeric_dtype series = true.
Proof.
  unfold _get_indices_to_edit.
  rewrite list_elem_of_In, List.filter_In, List.in_seq. split.
  - intros [_ Hi].
    destruct (columns_tolist sheet_data !! i) as [lbl|] eqn:Hl; [|done].
    apply andb_true_iff in Hi as [Hin Hnum].
    apply bool_decide_eq_true in Hin.
    destruct (getitem sheet_data lbl) as [series|] eqn:Hg; [|done].
    by exists lbl, series.
  - intros (lbl & series & Hl & Hin & Hg & Hnum). split.
    + apply lookup_lt_Some in Hl. lia.
    + rewrite Hl, Hg, Hnum. by rewrite bool_decide_eq_true_2.
Qed.




Lemma filter_id_map {A} (f : A -> bool) l :
  List.filter id (map f l) = map f (List.filter f l).
Proof.
  induction l as [|x l IH]; simpl; [done|].
  rewrite IH. destruct (f x) eqn:Hx; simpl; by rewrite ?Hx.
Qed.

Lemma majority_exists_spec x column p :
  column <> [] ->
  majority_exists column x (Num.div (Fin p) 100) = true
  <-> Spec.frequency_reaches x column p.
Proof.
  intros Hne. unfold majority_exists, Spec.frequency_reaches, Spec.occurrences.
  unfold Num.geb, Pandas.mean, Pandas.eq_scalar.
  rewrite filter_id_map, !length_map.
  destruct column as [|v column]; [done|]. simpl map. simpl Num.div.
  cbv beta iota. unfold Num.leb. apply Qle_bool_iff.
Qed.






(** C6. Parsing the example of the documentation.  The instruction string
    ["M 5.0 m 10.0 C g c r p 10.0 s b o 1 O 0"] parses to the record with
    margin_upper 5.0, margin_lower 10.0, colour_upper green, colour_lower red,
    majority_percentage 10.0, formatting_option colour_both, row_offset 1 and
    column_offset 0, from which [colourize_columns] reads exactly these
    parameters; and the string that lists the same eight key/value pairs in
    any other order parses to the same record. *)
Theorem C6_parse_example :
  _parse_instructions Instr.example = ok Instr.example_record
  /\ extract_options Instr.example_record
     = ok {| formatting_option := "colour_both";
             margin_options := (Fin 5, Fin 10);
             colour_options := ("green", "red")%string;
             majority_percentage := Fin 10;
             write_offsets := (1, 0)%Z |}
  /\ forall pairs,
       pairs ≡ₚ Instr.example_pairs ->
       _parse_instructions (Instr.render pairs) = ok Instr.example_record.
Proof.
  split; [|split].
  - change Instr.example with (Instr.render Instr.example_pairs).
    by apply ParseFacts.parse_render.
  - reflexivity.
  - apply ParseFacts.parse_render.
Qed.

Lemma C6_parse_example_witness :
  _parse_instructions "O 0 s b M 5.0 c r m 10.0 p 10.0 C g o 1"
  = ok Instr.example_record.
Proof.
  change "O 0 s b M 5.0 c r m 10.0 p 10.0 C g o 1"%string
    with (Instr.render [("O", "0"); ("s", "b"); ("M", "5.0"); ("c", "r");
                        ("m", "10.0"); ("p", "10.0"); ("C", "g"); ("o", "1")]%string).
  apply C6_parse_example.
  apply (bool_decide_unpack _). by vm_compute.
Defined.

Section malformed_instructions.

Local Open Scope string_scope.




End malformed_instructions.

(** * Further properties of the code *)

Section parser_properties.

Local Open Scope string_scope.
Import Instr Options.

Lemma apply_instruction_typed cur next d d' :
  apply_instruction cur next d = ok d' -> well_typed d -> well_typed d'.
Proof.
  intros Hstep Hd.
  assert (forall name v, well_typed_entry name v -> well_typed (<[name := v]> d))
    as Hins.
  { intros name v Hv name' v'. rewrite lookup_insert.
    case_decide; [intros [= <-]; by subst | apply Hd]. }
  revert Hstep. unfold apply_instruction, py_float, py_int.
  repeat match goal with
    | |- context [String.eqb cur ?c] =>
        destruct (String.eqb cur c) eqn:?Hc;
        [apply String.eqb_eq in Hc; subst cur | clear Hc]
    end;
    repeat match goal with
      | |- context [String.eqb next ?c] =>
          destruct (String.eqb next c) eqn:?Hn;
          [apply String.eqb_eq in Hn; subst next | clear Hn]
      | |- context [PyStr.float_of_token next] =>
          destruct (PyStr.float_of_token next)
      | |- context [PyStr.int_of_token next] =>
          destruct (PyStr.int_of_token next)
      end;
    simpl; intros Heq; try discriminate Heq; injection Heq as <-;
    try exact Hd; apply Hins; unfold well_typed_entry;
    first
      [ left; split; [solve_elem | by eexists]
      | right; left; split; [solve_elem | by (left + right)]
      | right; right; left; split; [reflexivity|];
        first [by left | by (right; left) | by (right; right)]
      | right; right; right; split; [solve_elem | by eexists] ].
Qed.

Lemma parse_typed instructions d :
  _parse_instructions instructions = ok d -> well_typed d.
Proof.
  unfold _parse_instructions.
  apply (ParseFacts.foldM_invariant _ well_typed); [|intros name v; by rewrite lookup_empty].
  intros d0 i d1 _ Hd0 Hstep. unfold parse_step in Hstep.
  destruct (PyStr.split instructions !! i) as [cur|]; [|done].
  cbn [of_option] in Hstep. rewrite ParseFacts.bind_ok in Hstep.
  destruct (PyStr.is_substring cur POSSIBLE_INSTRUCTIONS); [|by injection Hstep as <-].
  destruct (PyStr.split instructions !! (i + 1)%nat) as [next|]; [|done].
  cbn [of_option] in Hstep. rewrite ParseFacts.bind_ok in Hstep.
  by eapply apply_instruction_typed.
Qed.

(** X1. Whatever the parser returns is a dict over the eight option names
    with values of the kind stored under each name: floats for the margins
    and the majority percentage, "red" or "green" for the colours, one of
    the three mode names, integers for the offsets. *)
Theorem X1_parsed_options_typed instructions d :
  _parse_instructions instructions = ok d -> well_typed d.
Proof. apply parse_typed. Qed.

Lemma X1_parsed_options_typed_witness :
  _parse_instructions example = ok example_record /\ well_typed example_record.
Proof.
  assert (_parse_instructions example = ok example_record) as H.
  { change example with (render example_pairs). by apply ParseFacts.parse_render. }
  split; [exact H|]. exact (X1_parsed_options_typed example example_record H).
Defined.

Lemma typed_float d name v :
  well_typed d ->
  name ∈ ["margin_upper"; "margin_lower"; "majority_percentage"] ->
  d !! name = Some v -> exists x, v = VFloat x.
Proof.
  intros Hd Hname Hv.
  destruct (Hd name v Hv) as [[_ H]|[[Hn _]|[[Hn _]|[Hn _]]]]; [done|..];
    repeat (apply elem_of_cons in Hname as [->|Hname]);
    try (by apply elem_of_nil in Hname); try discriminate Hn; elem_contra Hn.
Qed.

Lemma typed_str d name v :
  well_typed d ->
  name ∈ ["formatting_option"; "colour_upper"; "colour_lower"] ->
  d !! name = Some v -> exists s, v = VStr s.
Proof.
  intros Hd Hname Hv.
  destruct (Hd name v Hv) as [[Hn _]|[[_ H]|[[_ H]|[Hn _]]]];
    [|destruct H as [->| ->]; by eexists
     |destruct H as [->|[->| ->]]; by eexists|];
    repeat (apply elem_of_cons in Hname as [->|Hname]);
    try (by apply elem_of_nil in Hname); elem_contra Hn.
Qed.

Lemma typed_int d name v :
  well_typed d ->
  name ∈ ["row_offset"; "column_offset"] ->
  d !! name = Some v -> exists z, v = VInt z.
Proof.
  intros Hd Hname Hv.
  destruct (Hd name v Hv) as [[Hn _]|[[Hn _]|[[Hn _]|[_ H]]]]; [..|done];
    repeat (apply elem_of_cons in Hname as [->|Hname]);
    try (by apply elem_of_nil in Hname); try discriminate Hn; elem_contra Hn.
Qed.

(** On a dict of the parser, reading the options fails only with
    [KeyError], and only when an option is missing. *)
Lemma extract_options_outcome d :
  well_typed d ->
  (exists o, extract_options d = ok o
             /\ forall k, k ∈ required_keys -> is_Some (d !! option_name k))
  \/ (extract_options d = raise KeyError
      /\ exists k, k ∈ required_keys /\ d !! option_name k = None).
Proof.
  intros Hd. unfold extract_options, subscript.
  destruct (d !! "formatting_option") as [v1|] eqn:H1;
    [destruct (typed_str d "formatting_option" v1 Hd ltac:(solve_elem) H1) as [s1 ->]
    |right; split; [done|]; exists "s"; split; [solve_elem | done]].
  destruct (d !! "margin_upper") as [v2|] eqn:H2;
    [destruct (typed_float d "margin_upper" v2 Hd ltac:(solve_elem) H2) as [x2 ->]
    |right; split; [done|]; exists "M"; split; [solve_elem | done]].
  destruct (d !! "margin_lower") as [v3|] eqn:H3;
    [destruct (typed_float d "margin_lower" v3 Hd ltac:(solve_elem) H3) as [x3 ->]
    |right; split; [done|]; exists "m"; split; [solve_elem | done]].
  destruct (d !! "colour_upper") as [v4|] eqn:H4;
    [destruct (typed_str d "colour_upper" v4 Hd ltac:(solve_elem) H4) as [s4 ->]
    |right; split; [done|]; exists "C"; split; [solve_elem | done]].
  destruct (d !! "colour_lower") as [v5|] eqn:H5;
    [destruct (typed_str d "colour_lower" v5 Hd ltac:(solve_elem) H5) as [s5 ->]
    |right; split; [done|]; exists "c"; split; [solve_elem | done]].
  destruct (d !! "majority_percentage") as [v6|] eqn:H6;
    [destruct (typed_float d "majority_percentage" v6 Hd ltac:(solve_elem) H6) as [x6 ->]
    |right; split; [done|]; exists "p"; split; [solve_elem | done]].
  destruct (d !! "row_offset") as [v7|] eqn:H7;
    [destruct (typed_int d "row_offset" v7 Hd ltac:(solve_elem) H7) as [z7 ->]
    |right; split; [done|]; exists "o"; split; [solve_elem | done]].
  destruct (d !! "column_offset") as [v8|] eqn:H8;
    [destruct (typed_int d "column_offset" v8 Hd ltac:(solve_elem) H8) as [z8 ->]
    |right; split; [done|]; exists "O"; split; [solve_elem | done]].
  left. eexists. split; [reflexivity|].
  intros k Hk. apply ParseFacts.required_key_cases in Hk.
  repeat (destruct Hk as [->|Hk]); try subst k; by eexists.
Qed.

(** X2. Once the parser has returned, reading the options either succeeds,
    exactly when each of the eight options was set, or raises [KeyError];
    in the second case [colourize_columns] and [colourize_all] raise
    [KeyError] and leave the object as it was. *)
Theorem X2_missing_option_is_KeyError columns exclude_columns instructions
    multi_index self d :
  _parse_instructions instructions = ok d ->
  ((forall k, k ∈ required_keys -> is_Some (d !! option_name k))
   <-> exists o, extract_options d = ok o)
  /\ ((exists k, k ∈ required_keys /\ d !! option_name k = None) ->
      colourize_columns columns instructions multi_index self
      = (raise KeyError, self)
      /\ colourize_all instructions exclude_columns multi_index self
         = (raise KeyError, self)).
Proof.
  intros Hparse.
  pose proof (parse_typed instructions d Hparse) as Hd.
  destruct (extract_options_outcome d Hd) as [(o & Ho & Hall)|(Herr & k & Hk & Hnone)].
  - split.
    + split; [by exists o | done].
    + intros (k & Hk & Hnone). destruct (Hall k Hk) as [v Hv]. congruence.
  - split.
    + split.
      * intros Hall. destruct (Hall k Hk) as [v Hv]. congruence.
      * intros [o Ho]. rewrite Herr in Ho. discriminate Ho.
    + intros _. unfold colourize_columns, colourize_all.
      split; rewrite TraceFacts.lift_bind, Hparse; cbv beta iota delta [ok];
        by rewrite TraceFacts.lift_bind, Herr.
Qed.

Lemma X2_missing_option_is_KeyError_witness :
  _parse_instructions "M 5.0 m 10.0" = ok {[ "margin_upper" := VFloat (Fin 5);
                                            "margin_lower" := VFloat (Fin 10) ]}
  /\ colourize_columns [Simple "score"] "M 5.0 m 10.0" false Samples.modifier0
     = (raise KeyError, Samples.modifier0).
Proof.
  assert (_parse_instructions "M 5.0 m 10.0"
          = ok {[ "margin_upper" := VFloat (Fin 5);
                  "margin_lower" := VFloat (Fin 10) ]}) as H.
  { unfold _parse_instructions. simpl. rewrite insert_empty.
    apply f_equal, insert_insert_ne. discriminate. }
  split; [exact H|].
  apply (X2_missing_option_is_KeyError [Simple "score"] [] "M 5.0 m 10.0" false
           Samples.modifier0 _ H).
  exists "s". split; [solve_elem | reflexivity].
Defined.




Lemma foldM_app {A S} (f : S -> A -> result S) l1 l2 :
  forall s, foldM f s (l1 ++ l2)%list = (foldM f s l1 ≫= fun s' => foldM f s' l2).
Proof.
  induction l1 as [|x l1 IH]; intros s; [done|].
  rewrite <- app_comm_cons, !ParseFacts.foldM_cons.
  destruct (f s x) as [e|s1]; [done|]. apply IH.
Qed.

(** What an instruction does to a dict is what it does to the empty dict,
    laid over the dict. *)
Lemma apply_instruction_uniform cur next d :
  apply_instruction cur next d
  = (apply_instruction cur next ∅ ≫= fun u => ok (u ∪ d)).
Proof.
  unfold apply_instruction, py_float, py_int.
  repeat match goal with
    | |- context [String.eqb cur ?c] => destruct (String.eqb cur c)
    end;
    repeat match goal with
      | |- context [String.eqb next ?c] => destruct (String.eqb next c)
      | |- context [PyStr.float_of_token next] =>
          destruct (PyStr.float_of_token next)
      | |- context [PyStr.int_of_token next] =>
          destruct (PyStr.int_of_token next)
      end;
    simpl; try reflexivity;
    rewrite ?insert_empty, <- ?insert_union_singleton_l, ?(left_id_L ∅ (∪));
    reflexivity.
Qed.

(** X4. The last pair wins: when the string ends with a key and its value
    and the parser returns, the option of the key holds the value that this
    pair alone produces, whatever was set for the key earlier in the
    string. *)
Theorem X4_last_pair_wins instructions pre k v x d :
  PyStr.split instructions = (pre ++ [k; v])%list ->
  k ∈ required_keys ->
  apply_instruction k v ∅ = ok {[ option_name k := x ]} ->
  _parse_instructions instructions = ok d ->
  d !! option_name k = Some x.
Proof.
  intros Hsplit Hk Hpair. unfold _parse_instructions. rewrite Hsplit.
  rewrite length_app. cbn [length].
  rewrite seq_app, foldM_app. cbn [seq plus].
  destruct (foldM _ ∅ (seq 0 (length pre))) as [e|d1]; [done|].
  rewrite ParseFacts.bind_ok, !ParseFacts.foldM_cons.
  assert ((pre ++ [k; v])%list !! length pre = Some k) as Hi
    by (by rewrite list_lookup_middle).
  assert ((pre ++ [k; v])%list !! S (length pre) = Some v) as Hi'.
  { rewrite (app_assoc pre [k] [v] : (pre ++ [k; v] = (pre ++ [k]) ++ [v])%list).
    rewrite list_lookup_middle; [done|]. rewrite length_app. simpl. lia. }
  assert ((pre ++ [k; v])%list !! S (S (length pre)) = None) as Hend.
  { apply lookup_ge_None. rewrite length_app. simpl. lia. }
  assert (PyStr.is_substring k POSSIBLE_INSTRUCTIONS = true) as Hkey.
  { apply ParseFacts.required_key_cases in Hk.
    repeat (destruct Hk as [->|Hk]); try subst k; reflexivity. }
  replace (length pre + 0)%nat with (length pre) by lia.
  rewrite (ParseFacts.parse_step_at _ _ _ _ Hi), Hkey.
  replace (length pre + 1)%nat with (S (length pre)) by lia.
  rewrite Hi'. cbn [of_option]. rewrite ParseFacts.bind_ok.
  rewrite apply_instruction_uniform, Hpair, !ParseFacts.bind_ok.
  rewrite ParseFacts.foldM_cons, (ParseFacts.parse_step_at _ _ _ _ Hi').
  replace (S (length pre) + 1)%nat with (S (S (length pre))) by lia.
  rewrite Hend.
  destruct (PyStr.is_substring v POSSIBLE_INSTRUCTIONS); [done|].
  rewrite ParseFacts.bind_ok. intros [= <-].
  apply lookup_union_Some_l, lookup_singleton_eq.
Qed.

Lemma X4_last_pair_wins_witness :
  _parse_instructions "C r M 1 C g" ≫= (fun d => ok (d !! "colour_upper"))
  = ok (Some (VStr "green")).
Proof.
  destruct (_parse_instructions "C r M 1 C g") as [e|d] eqn:Hd.
  - exfalso. revert Hd. unfold _parse_instructions. simpl. discriminate.
  - rewrite ParseFacts.bind_ok. do 2 f_equal.
    apply (X4_last_pair_wins "C r M 1 C g" ["C"; "r"; "M"; "1"] "C" "g"
             (VStr "green") d); [reflexivity | solve_elem | | exact Hd].
    unfold apply_instruction. simpl. by rewrite insert_empty.
Defined.




End parser_properties.

Section bounds_properties.

Lemma validate_upper u :
  Pandas.validate_percentile (Num.rsub 1 (Num.div u 100)) = true
  <-> valid_percentage u.
Proof.
  unfold valid_percentage, Pandas.validate_percentile. destruct u as [q|]; simpl.
  - rewrite andb_true_iff, !Qle_bool_iff. unfold Qdiv.
    change (/ 100) with (1 # 100). split.
    + intros [H0 H1]. exists q. split; [done|]. lra.
    + intros (q' & [= <-] & H0 & H1). lra.
  - split; [done | intros (q & Hq & _); discriminate Hq].
Qed.

Lemma validate_lower l :
  Pandas.validate_percentile (Num.div l 100) = true <-> valid_percentage l.
Proof.
  unfold valid_percentage, Pandas.validate_percentile. destruct l as [q|]; simpl.
  - rewrite andb_true_iff, !Qle_bool_iff. unfold Qdiv.
    change (/ 100) with (1 # 100). split.
    + intros [H0 H1]. exists q. split; [done|]. lra.
    + intros (q' & [= <-] & H0 & H1). lra.
  - split; [done | intros (q & Hq & _); discriminate Hq].
Qed.

Lemma quantile_outcome values q :
  if Pandas.validate_percentile q
  then exists x, Pandas.quantile values q = Some x
  else Pandas.quantile values q = None.
Proof.
  unfold Pandas.quantile. destruct (Pandas.validate_percentile q); [|done].
  destruct q; [destruct (Pandas.sort _)|]; by eexists.
Qed.

(** When [_calculate_bounds] returns and when it raises. *)
Lemma calculate_bounds_outcome values upper_bound lower_bound :
  (valid_percentage upper_bound /\ valid_percentage lower_bound
   /\ exists b, _calculate_bounds (NumericSeries values) upper_bound lower_bound
                = ok b)
  \/ (~ (valid_percentage upper_bound /\ valid_percentage lower_bound)
      /\ _calculate_bounds (NumericSeries values) upper_bound lower_bound
         = raise ValueError).
Proof.
  unfold _calculate_bounds.
  pose proof (quantile_outcome (Pandas.sort_values values)
                (Num.rsub 1 (Num.div upper_bound 100))) as Hu.
  pose proof (quantile_outcome (Pandas.sort_values values)
                (Num.div lower_bound 100)) as Hl.
  pose proof (validate_upper upper_bound) as Hvu.
  pose proof (validate_lower lower_bound) as Hvl.
  destruct (Pandas.validate_percentile (Num.rsub 1 (Num.div upper_bound 100))).
  - destruct Hu as [x ->].
    destruct (Pandas.validate_percentile (Num.div lower_bound 100)).
    + destruct Hl as [y ->]. left.
      split; [by apply Hvu|]. split; [by apply Hvl|]. by eexists.
    + rewrite Hl. right. split; [|done].
      intros [_ H]. apply Hvl in H. discriminate H.
  - rewrite Hu. right. split; [|done].
    intros [H _]. apply Hvu in H. discriminate H.
Qed.


Lemma quantile_dropna values q :
  Pandas.quantile values q = Pandas.quantile (map Fin (Pandas.dropna values)) q.
Proof. unfold Pandas.quantile. by rewrite PandasFacts.dropna_Fin. Qed.

(** X7. Missing values do not influence the bounds: the column and the
    column without its NaN rows have the same bounds (or the same error);
    and a column with no value at all has the bounds [(NaN, NaN)] for valid
    percentages. *)
Theorem X7_bounds_ignore_missing values upper_bound lower_bound :
  _calculate_bounds (NumericSeries values) upper_bound lower_bound
  = _calculate_bounds (NumericSeries (map Fin (Pandas.dropna values)))
      upper_bound lower_bound
  /\ (Pandas.dropna values = [] ->
      valid_percentage upper_bound -> valid_percentage lower_bound ->
      _calculate_bounds (NumericSeries values) upper_bound lower_bound
      = ok (NaN, NaN)).
Proof.
  split.
  - unfold _calculate_bounds. rewrite !PandasFacts.quantile_sort_values.
    by rewrite !(quantile_dropna values).
  - intros Hempty Hu Hl. unfold _calculate_bounds.
    rewrite !PandasFacts.quantile_sort_values. unfold Pandas.quantile.
    apply validate_upper in Hu. apply validate_lower in Hl.
    rewrite Hu, Hl, Hempty. simpl.
    by destruct (Num.rsub 1 (Num.div upper_bound 100)), (Num.div lower_bound 100).
Qed.










End bounds_properties.

Section pass_properties.

Local Open Scope string_scope.



(** A selected index denotes a numeric column. *)
Lemma selected_numeric sheet_data columns_to_format multi_index c :
  c ∈ _get_indices_to_edit sheet_data columns_to_format multi_index ->
  exists lbl values,
    Pandas.columns_tolist sheet_data !! c = Some lbl
    /\ Pandas.getitem sheet_data lbl = Some (NumericSeries values).
Proof.
  intros Hc. apply selected_spec in Hc as (lbl & series & Hl & _ & Hg & Hnum).
  destruct series as [values|]; [|done]. by exists lbl, values.
Qed.


(** [_colourize_columns], step by step. *)
Lemma colourize_columns_steps sheet_name sheet_data columns_to_format
    formatting_option margin_options colour_options majority_percentage
    write_offsets multi_index self :
  _colourize_columns sheet_name sheet_data columns_to_format formatting_option
    margin_options colour_options majority_percentage write_offsets
    multi_index self
  = match compute_bounds sheet_data margin_options.1 margin_options.2
            (_get_indices_to_edit sheet_data columns_to_format multi_index) with
    | inl e => (raise e, register_formats colour_options self)
    | inr bounds =>
        match Xlsx.sheets (workbook_writer self) !! sheet_name with
        | None => (raise KeyError, register_formats colour_options self)
        | Some _ =>
            for_each (_get_indices_to_edit sheet_data columns_to_format multi_index)
              (column_body sheet_name sheet_data formatting_option
                 {| Xlsx.bg_color := colour_code colour_options.1 |}
                 {| Xlsx.bg_color := colour_code colour_options.2 |}
                 write_offsets.1 write_offsets.2 bounds majority_percentage)
              (register_formats colour_options self)
        end
    end.
Proof.
  destruct margin_options as [upper_bound lower_bound].
  destruct colour_options as [upper_colour lower_colour].
  destruct write_offsets as [row_offset column_offset].
  unfold _colourize_columns. simpl.
  unfold mbind at 1 2, M_bind at 1 2. simpl.
  rewrite TraceFacts.lift_bind.
  destruct (compute_bounds _ _ _ _) as [e|bounds]; [reflexivity|].
  unfold mbind, M_bind, get_worksheet, register_formats. simpl.
  by destruct (Xlsx.sheets (workbook_writer self) !! sheet_name).
Qed.

(** X10. What a formatting pass can change, whatever its outcome: it
    registers exactly two formats (upper, then lower) in the book, leaves
    [sheets_to_modify] and the log of every other sheet as they were, and
    only appends to the log of its own sheet; it never creates a sheet. *)
Theorem X10_pass_frame sheet_name sheet_data columns_to_format
    formatting_option margin_options colour_options majority_percentage
    write_offsets multi_index self :
  let self' :=
    (_colourize_columns sheet_name sheet_data columns_to_format
       formatting_option margin_options colour_options majority_percentage
       write_offsets multi_index self).2 in
  sheets_to_modify self' = sheets_to_modify self
  /\ Xlsx.book_formats (workbook_writer self')
     = (Xlsx.book_formats (workbook_writer self)
        ++ [ {| Xlsx.bg_color := colour_code colour_options.1 |};
             {| Xlsx.bg_color := colour_code colour_options.2 |} ])%list
  /\ (forall name, name <> sheet_name ->
        Xlsx.sheets (workbook_writer self') !! name
        = Xlsx.sheets (workbook_writer self) !! name)
  /\ (forall log, Xlsx.sheets (workbook_writer self) !! sheet_name = Some log ->
        exists ws, Xlsx.sheets (workbook_writer self') !! sheet_name
                   = Some (log ++ ws)%list)
  /\ (Xlsx.sheets (workbook_writer self) !! sheet_name = None ->
      Xlsx.sheets (workbook_writer self') !! sheet_name = None).
Proof.
  destruct (TraceFacts.colourize_columns_run sheet_name sheet_data
    columns_to_format formatting_option margin_options colour_options
    majority_percentage write_offsets multi_index self)
    as (r & ws & Hrun & _ & _).
  rewrite Hrun. simpl. split; [done|].
  split; [by rewrite <- app_assoc|].
  split; [intros name Hne; by rewrite lookup_alter_ne|].
  split.
  - intros log Hlog. exists ws. by rewrite lookup_alter_eq, Hlog.
  - intros Hnone. by rewrite lookup_alter_eq, Hnone.
Qed.


Lemma compute_bounds_ok sheet_data upper_bound lower_bound indices :
  (forall c, c ∈ indices ->
     exists lbl values,
       Pandas.columns_tolist sheet_data !! c = Some lbl
       /\ Pandas.getitem sheet_data lbl = Some (NumericSeries values)) ->
  valid_percentage upper_bound -> valid_percentage lower_bound ->
  exists bounds,
    compute_bounds sheet_data upper_bound lower_bound indices = ok bounds.
Proof.
  intros Hnum Hu Hl. unfold compute_bounds.
  generalize (∅ : gmap nat (number * number)).
  induction indices as [|c indices IH]; intros d; [by exists d|].
  rewrite ParseFacts.foldM_cons.
  destruct (Hnum c) as (lbl & values & Hlbl & Hg); [by left|].
  rewrite Hlbl. cbn [of_option]. rewrite ParseFacts.bind_ok, Hg.
  cbn [of_option]. rewrite ParseFacts.bind_ok.
  destruct (calculate_bounds_outcome values upper_bound lower_bound)
    as [(_ & _ & b & ->)|[Hbad _]]; [|tauto].
  rewrite !ParseFacts.bind_ok. apply IH.
  intros c' Hc'. apply Hnum. by right.
Qed.



(** X12. A sheet that the workbook does not have: the pass raises
    [KeyError] after computing the bounds, registers its two formats and
    writes nothing. *)
Theorem X12_pass_missing_sheet sheet_name sheet_data columns_to_format
    formatting_option margin_options colour_options majority_percentage
    write_offsets multi_index self :
  Xlsx.sheets (workbook_writer self) !! sheet_name = None ->
  _get_indices_to_edit sheet_data columns_to_format multi_index = []
  \/ (valid_percentage margin_options.1 /\ valid_percentage margin_options.2) ->
  _colourize_columns sheet_name sheet_data columns_to_format formatting_option
    margin_options colour_options majority_percentage write_offsets
    multi_index self
  = (raise KeyError, register_formats colour_options self).
Proof.
  intros Hsheet Hok. rewrite colourize_columns_steps, Hsheet.
  destruct Hok as [->|[Hu Hl]]; [done|].
  destruct (compute_bounds_ok sheet_data margin_options.1 margin_options.2
              (_get_indices_to_edit sheet_data columns_to_format multi_index))
    as [bounds ->]; [|done|done|done].
  intros c Hc. by eapply selected_numeric.
Qed.

Lemma X12_pass_missing_sheet_witness :
  _colourize_columns "Sheet2" Samples.scores [Simple "score"] "colour_both"
    (Fin 5, Fin 10) ("green", "red") (Fin 10) (1, 0)%Z false Samples.modifier0
  = (raise KeyError, register_formats ("green", "red") Samples.modifier0).
Proof.
  apply (X12_pass_missing_sheet "Sheet2" Samples.scores [Simple "score"]
           "colour_both" (Fin 5, Fin 10) ("green", "red") (Fin 10) (1, 0)%Z
           false Samples.modifier0).
  - reflexivity.
  - right. split; [exists 5 | exists 10]; (split; [reflexivity|split; discriminate]).
Defined.





(** X14. When no requested column is selected (none is present and
    numeric, or the request is empty), the pass returns normally on an
    existing sheet and writes nothing, even with percentages that would be
    rejected otherwise; only its two formats are registered. *)
Theorem X14_pass_without_selection sheet_name sheet_data columns_to_format
    formatting_option margin_options colour_options majority_percentage
    write_offsets multi_index self :
  _get_indices_to_edit sheet_data columns_to_format multi_index = [] ->
  is_Some (Xlsx.sheets (workbook_writer self) !! sheet_name) ->
  _colourize_columns sheet_name sheet_data columns_to_format formatting_option
    margin_options colour_options majority_percentage write_offsets
    multi_index self
  = (ok tt, register_formats colour_options self).
Proof.
  intros Hsel [log Hsheet]. by rewrite colourize_columns_steps, Hsel, Hsheet.
Qed.

Lemma X14_pass_without_selection_witness :
  _colourize_columns "Sheet1" Samples.scores [Simple "name"; Simple "total"]
    "colour_both" (Fin 500, NaN) ("green", "red") (Fin 10) (1, 0)%Z false
    Samples.modifier0
  = (ok tt, register_formats ("green", "red") Samples.modifier0).
Proof.
  apply (X14_pass_without_selection "Sheet1" Samples.scores
           [Simple "name"; Simple "total"] "colour_both" (Fin 500, NaN)
           ("green", "red") (Fin 10) (1, 0)%Z false Samples.modifier0).
  - reflexivity.
  - by eexists.
Defined.

Lemma flat_map_nil {A B} (f : A -> list B) l :
  (forall x, f x = []) -> flat_map f l = [].
Proof. intros Hf. induction l as [|x l IH]; simpl; [done|]. by rewrite Hf, IH. Qed.

(** X15. A mode other than the three mode names writes nothing: the pass
    may still raise or return as for any mode, but no directive is
    appended to any sheet. *)
Theorem X15_unknown_mode_writes_nothing sheet_name sheet_data columns_to_format
    formatting_option margin_options colour_options majority_percentage
    write_offsets multi_index self :
  formatting_option <> "colour_upper" ->
  formatting_option <> "colour_lower" ->
  formatting_option <> "colour_both" ->
  (_colourize_columns sheet_name sheet_data columns_to_format formatting_option
     margin_options colour_options majority_percentage write_offsets
     multi_index self).2
  = register_formats colour_options self.
Proof.
  intros Hu Hl Hb.
  destruct (TraceFacts.colourize_columns_run sheet_name sheet_data
    columns_to_format formatting_option margin_options colour_options
    majority_percentage write_offsets multi_index self)
    as (r & ws & -> & Hpre & _).
  simpl. assert (ws = []) as ->; [|apply TraceFacts.push_nil].
  apply prefix_nil_inv. revert Hpre.
  replace (pass_trace _ _ _ _ _ _ _ _ _ _) with (@nil directive); [done|].
  symmetry. unfold pass_trace. apply flat_map_nil. intros c.
  unfold column_trace. apply flat_map_nil. intros row.
  unfold cell_trace. destruct (Pandas.iat sheet_data row c) as [[v|]|]; try done.
  unfold cell_directives.
  rewrite (bool_decide_eq_false_2 (formatting_option ∈ upper_modes)).
  2:{ intros Hin. apply (bool_decide_eq_true_2 _), upper_modes_spec in Hin.
      by destruct Hin. }
  rewrite (bool_decide_eq_false_2 (formatting_option ∈ lower_modes)).
  2:{ intros Hin. apply (bool_decide_eq_true_2 _), lower_modes_spec in Hin.
      by destruct Hin. }
  done.
Qed.

Lemma X15_unknown_mode_writes_nothing_witness :
  (_colourize_columns "Sheet1" Samples.scores [Simple "score"] "colour_all"
     (Fin 50, Fin 50) ("green", "red") (Fin 100) (1, 0)%Z false
     Samples.modifier0).2
  = register_formats ("green", "red") Samples.modifier0.
Proof.
  apply (X15_unknown_mode_writes_nothing "Sheet1" Samples.scores
           [Simple "score"] "colour_all" (Fin 50, Fin 50) ("green", "red")
           (Fin 100) (1, 0)%Z false Samples.modifier0); discriminate.
Defined.

Lemma seq_sorted a n : StronglySorted lt (seq a n).
Proof.
  revert a. induction n as [|n IH]; intros a; simpl; constructor; [apply IH|].
  apply Forall_forall. intros x Hx.
  apply list_elem_of_In, in_seq in Hx. lia.
Qed.

Lemma filter_sorted {A} (R : A -> A -> Prop) (f : A -> bool) l :
  StronglySorted R l -> StronglySorted R (List.filter f l).
Proof.
  induction 1 as [|x l Hs IH Hall]; simpl; [constructor|].
  destruct (f x); [|done]. constructor; [done|].
  rewrite Forall_forall in *. intros y Hy.
  apply Hall. apply list_elem_of_In. apply list_elem_of_In in Hy.
  by apply List.filter_In in Hy as [Hy _].
Qed.

(** X16. The selected indices come in strictly increasing order (so the
    columns are visited left to right, each once) and each of them is the
    position of a column of the frame. *)
Theorem X16_selected_indices_ordered sheet_data columns_to_format multi_index :
  StronglySorted lt (_get_indices_to_edit sheet_data columns_to_format multi_index)
  /\ Forall (fun i => i < length (Pandas.columns sheet_data))%nat
       (_get_indices_to_edit sheet_data columns_to_format multi_index).
Proof.
  unfold _get_indices_to_edit. split.
  - apply filter_sorted, seq_sorted.
  - apply Forall_forall. intros i Hi.
    apply list_elem_of_In, List.filter_In in Hi as [Hi _].
    apply in_seq in Hi. unfold Pandas.columns_tolist in Hi.
    rewrite length_map in Hi. lia.
Qed.

End pass_properties.

Section majority_properties.

Lemma occurrences_le x column :
  (Spec.occurrences x column <= length column)%nat.
Proof. unfold Spec.occurrences. apply List.filter_length_le. Qed.

Lemma fraction_bounds (a b : nat) :
  (a <= b)%nat -> (0 < b)%nat ->
  0 <= inject_Z (Z.of_nat a) / inject_Z (Z.of_nat b)
  /\ inject_Z (Z.of_nat a) / inject_Z (Z.of_nat b) <= 1.
Proof.
  intros Hab Hb.
  assert (0 < inject_Z (Z.of_nat b)) as Hb' by (rewrite <- (Zlt_Qlt 0); lia).
  assert (0 <= inject_Z (Z.of_nat a)) as Ha' by (rewrite <- (Zle_Qle 0); lia).
  assert (inject_Z (Z.of_nat a) <= inject_Z (Z.of_nat b)) as Hab'
    by (rewrite <- Zle_Qle; lia).
  split.
  - apply Qle_shift_div_l; [done|]. lra.
  - apply Qle_shift_div_r; [done|]. lra.
Qed.

(** X17. The range of the majority threshold: on a column with at least
    one row, a threshold of 0 percent or less flags every value (so the
    maximum and the minimum are always excluded), and a threshold above
    100 percent flags none. *)
Theorem X17_majority_threshold_range column x p :
  column <> [] ->
  (p <= 0 -> majority_exists column x (Num.div (Fin p) 100) = true)
  /\ (100 < p -> majority_exists column x (Num.div (Fin p) 100) = false).
Proof.
  intros Hne.
  destruct (fraction_bounds (Spec.occurrences x column) (length column))
    as [H0 H1]; [apply occurrences_le | destruct column; [done|simpl; lia] |].
  pose proof (majority_exists_spec x column p Hne) as Hspec.
  unfold Spec.frequency_reaches in Hspec. split; intros Hp.
  - apply Hspec. revert Hp. unfold Qdiv at 1. change (/ 100) with (1 # 100).
    lra.
  - apply not_true_is_false. intros Hflag. apply Hspec in Hflag.
    revert Hp Hflag. unfold Qdiv at 1. change (/ 100) with (1 # 100). lra.
Qed.

Lemma X17_majority_threshold_range_witness :
  majority_exists [Fin 1; Fin 2; Fin 3] (Fin 3) (Num.div (Fin 0) 100) = true
  /\ majority_exists [Fin 1; Fin 2; Fin 3] (Fin 3) (Num.div (Fin 101) 100) = false.
Proof.
  destruct (X17_majority_threshold_range [Fin 1; Fin 2; Fin 3] (Fin 3) 0)
    as [H0 _]; [discriminate|].
  destruct (X17_majority_threshold_range [Fin 1; Fin 2; Fin 3] (Fin 3) 101)
    as [_ H1]; [discriminate|].
  split; [apply H0; discriminate | apply H1; reflexivity].
Defined.

End majority_properties.

Section extreme_properties.

Lemma dropna_elem v xs : Fin v ∈ xs -> v ∈ Pandas.dropna xs.
Proof.
  induction xs as [|[q|] xs IH]; simpl; intros Hv.
  - by apply elem_of_nil in Hv.
  - apply elem_of_cons in Hv as [Hv|Hv]; [injection Hv as ->; left|].
    right. by apply IH.
  - apply elem_of_cons in Hv as [Hv|Hv]; [discriminate Hv|]. by apply IH.
Qed.

Lemma max_of_column column v :
  Fin v ∈ column ->
  exists m, Pandas.max column = Fin m /\ v <= m /\ Fin m ∈ column.
Proof.
  intros Hv. pose proof (dropna_elem _ _ Hv) as Hd. unfold Pandas.max.
  destruct (Pandas.dropna column) as [|q qs] eqn:Hq;
    [by apply elem_of_nil in Hd|].
  exists (foldl Qmax q qs). split; [done|]. split.
  - by apply PandasFacts.foldl_Qmax_upper.
  - pose proof (PandasFacts.foldl_Qmax_elem q qs) as Hm. rewrite <- Hq in Hm.
    clear - Hm. induction column as [|[a|] column IH]; simpl in Hm.
    + by apply elem_of_nil in Hm.
    + apply elem_of_cons in Hm as [->|Hm]; [left | right; by apply IH].
    + right. by apply IH.
Qed.

Lemma min_of_column column v :
  Fin v ∈ column ->
  exists m, Pandas.min column = Fin m /\ m <= v /\ Fin m ∈ column.
Proof.
  intros Hv. pose proof (dropna_elem _ _ Hv) as Hd. unfold Pandas.min.
  destruct (Pandas.dropna column) as [|q qs] eqn:Hq;
    [by apply elem_of_nil in Hd|].
  exists (foldl Qmin q qs). split; [done|]. split.
  - by apply PandasFacts.foldl_Qmin_lower.
  - pose proof (PandasFacts.foldl_Qmin_elem q qs) as Hm. rewrite <- Hq in Hm.
    clear - Hm. induction column as [|[a|] column IH]; simpl in Hm.
    + by apply elem_of_nil in Hm.
    + apply elem_of_cons in Hm as [->|Hm]; [left | right; by apply IH].
    + right. by apply IH.
Qed.





Lemma occurrences_constant q column :
  Forall (fun x => exists a, x = Fin a /\ a == q) column ->
  forall m, m == q -> Spec.occurrences (Fin m) column = length column.
Proof.
  intros Hall m Hm. unfold Spec.occurrences.
  induction Hall as [|x column (a & -> & Ha) _ IH]; [done|].
  simpl. replace (Qeq_bool a m) with true; [simpl; by rewrite IH|].
  symmetry. apply Qeq_bool_iff. lra.
Qed.

(** X19. A column whose rows all hold the same number is left uncoloured
    whenever the majority percentage is at most 100: both extremes are
    flagged as majority values and every cell equals them, so no cell
    yields a directive, whatever the mode and the bounds. *)
Theorem X19_constant_column_uncoloured formatting_option fU fL row_offset
    column_offset b column q p column_pos row_pos v :
  Forall (fun x => exists a, x = Fin a /\ a == q) column ->
  Fin v ∈ column ->
  p <= 100 ->
  Trace.cell_directives formatting_option fU fL row_offset column_offset b
    (Pandas.max column) (Pandas.min column)
    (majority_exists column (Pandas.max column) (Num.div (Fin p) 100))
    (majority_exists column (Pandas.min column) (Num.div (Fin p) 100))
    column_pos row_pos (Fin v)
  = [].
Proof.
  intros Hall Hv Hp.
  assert (column <> []) as Hne by (intros ->; by apply elem_of_nil in Hv).
  assert (forall x, Fin x ∈ column -> x == q) as Hq.
  { intros x Hx. rewrite Forall_forall in Hall.
    destruct (Hall _ Hx) as (a & Ha & Haq). by injection Ha as ->. }
  assert (forall m, m == q ->
            majority_exists column (Fin m) (Num.div (Fin p) 100) = true) as Hmaj.
  { intros m Hm. apply majority_exists_spec; [done|].
    unfold Spec.frequency_reaches.
    rewrite (occurrences_constant q column Hall m Hm).
    assert (0 < inject_Z (Z.of_nat (length column))) as Hlen.
    { rewrite <- (Zlt_Qlt 0). destruct column; [done|simpl; lia]. }
    apply Qle_shift_div_l; [done|].
    unfold Qdiv. change (/ 100) with (1 # 100). nra. }
  destruct (max_of_column _ _ Hv) as (M & HM & _ & HMin).
  destruct (min_of_column _ _ Hv) as (m & Hm & _ & Hmin).
  unfold cell_directives. rewrite HM, Hm.
  rewrite (Hmaj M (Hq _ HMin)), (Hmaj m (Hq _ Hmin)).
  pose proof (Hq _ Hv) as Hvq. pose proof (Hq _ HMin) as HMq.
  pose proof (Hq _ Hmin) as Hmq.
  unfold Num.gtb. simpl.
  replace (Qle_bool M v) with true by (symmetry; apply Qle_bool_iff; lra).
  replace (Qle_bool v m) with true by (symmetry; apply Qle_bool_iff; lra).
  simpl. by rewrite !andb_false_r.
Qed.

Lemma X19_constant_column_uncoloured_witness :
  Trace.cell_directives "colour_both" {| Xlsx.bg_color := "#FF0000" |}
    {| Xlsx.bg_color := "#00FF00" |} 1 0 (Fin 7, Fin 7)
    (Pandas.max [Fin 7; Fin 7]) (Pandas.min [Fin 7; Fin 7])
    (majority_exists [Fin 7; Fin 7] (Pandas.max [Fin 7; Fin 7])
       (Num.div (Fin 50) 100))
    (majority_exists [Fin 7; Fin 7] (Pandas.min [Fin 7; Fin 7])
       (Num.div (Fin 50) 100))
    0 1 (Fin 7)
  = [].
Proof.
  apply (X19_constant_column_uncoloured "colour_both" _ _ 1 0 (Fin 7, Fin 7)
           [Fin 7; Fin 7] 7 50 0 1 7).
  - repeat constructor; exists 7; split; reflexivity.
  - solve_elem.
  - discriminate.
Defined.

End extreme_properties.

Section workbook_properties.

Import Lifecycle.

Lemma extends_refl allowed self : extends allowed self self.
Proof.
  split; [done|]. split; [done|]. intros name.
  destruct (Xlsx.sheets (workbook_writer self) !! name) as [log|] eqn:Hn;
    [|done].
  exists []. by rewrite app_nil_r.
Qed.

Lemma extends_trans allowed s1 s2 s3 :
  extends allowed s1 s2 -> extends allowed s2 s3 -> extends allowed s1 s3.
Proof.
  intros (Hs12 & Hf12 & Hl12) (Hs23 & Hf23 & Hl23).
  split; [congruence|]. split; [by etrans|]. intros name.
  specialize (Hl12 name). specialize (Hl23 name).
  destruct (Xlsx.sheets (workbook_writer s1) !! name) as [log|].
  - destruct Hl12 as (ws1 & Hn2 & Hws1). rewrite Hn2 in Hl23.
    destruct Hl23 as (ws2 & Hn3 & Hws2).
    exists (ws1 ++ ws2)%list. rewrite app_assoc. split; [done|].
    intros Hname. by rewrite Hws1, Hws2.
  - by rewrite Hl12 in Hl23.
Qed.

Lemma extends_mono allowed allowed' self self' :
  (forall name, name ∈ allowed -> name ∈ allowed') ->
  extends allowed self self' -> extends allowed' self self'.
Proof.
  intros Hsub (Hs & Hf & Hl). split; [done|]. split; [done|].
  intros name. specialize (Hl name).
  destruct (Xlsx.sheets (workbook_writer self) !! name) as [log|]; [|done].
  destruct Hl as (ws & Hn & Hws). exists ws. split; [done|].
  intros Hname. apply Hws. intros Hin. by apply Hname, Hsub.
Qed.

Lemma pass_extends sheet_name sheet_data columns_to_format formatting_option
    margin_options colour_options majority_percentage write_offsets
    multi_index self :
  extends [sheet_name] self
    (_colourize_columns sheet_name sheet_data columns_to_format
       formatting_option margin_options colour_options majority_percentage
       write_offsets multi_index self).2.
Proof.
  destruct (TraceFacts.colourize_columns_run sheet_name sheet_data
    columns_to_format formatting_option margin_options colour_options
    majority_percentage write_offsets multi_index self)
    as (r & ws & Hrun & _ & _).
  rewrite Hrun. simpl. split; [done|]. split.
  - do 2 apply prefix_app_r. done.
  - intros name. unfold push, register_formats. simpl.
    destruct (Xlsx.sheets (workbook_writer self) !! name) as [log|] eqn:Hn.
    + destruct (decide (name = sheet_name)) as [->|Hne].
      * exists ws. rewrite lookup_alter_eq, Hn. split; [done|].
        intros Hnot. destruct Hnot. by left.
      * exists []. rewrite lookup_alter_ne, Hn, app_nil_r by done. done.
    + destruct (decide (name = sheet_name)) as [->|Hne].
      * by rewrite lookup_alter_eq, Hn.
      * by rewrite lookup_alter_ne.
Qed.

Lemma for_each_extends (items : list (string * DataFrame))
    (body : string * DataFrame -> M unit) :
  (forall item self, extends [item.1] self (body item self).2) ->
  forall self, extends items.*1 self (for_each items body self).2.
Proof.
  intros Hbody. induction items as [|item items IH]; intros self.
  - apply extends_refl.
  - simpl. unfold mbind, M_bind.
    pose proof (Hbody item self) as Hstep.
    destruct (body item self) as [[e|[]] s1]; simpl in *.
    + eapply extends_mono; [|exact Hstep].
      intros name Hn. apply list_elem_of_singleton in Hn as ->. by left.
    + eapply extends_trans.
      * eapply extends_mono; [|exact Hstep].
        intros name Hn. apply list_elem_of_singleton in Hn as ->. by left.
      * eapply extends_mono; [|apply IH]. intros name Hn. by right.
Qed.

Lemma colourize_extends columns exclude_columns instructions multi_index self :
  extends (sheets_to_modify self).*1 self
    (colourize_columns columns instructions multi_index self).2
  /\ extends (sheets_to_modify self).*1 self
       (colourize_all instructions exclude_columns multi_index self).2.
Proof.
  split.
  - unfold colourize_columns. rewrite TraceFacts.lift_bind.
    destruct (_parse_instructions instructions) as [e|d];
      [apply extends_refl|].
    rewrite TraceFacts.lift_bind.
    destruct (extract_options d) as [e|o]; [apply extends_refl|].
    unfold mbind, M_bind, read_sheets_to_modify. simpl.
    apply for_each_extends. intros [name df] s. apply pass_extends.
  - unfold colourize_all. rewrite TraceFacts.lift_bind.
    destruct (_parse_instructions instructions) as [e|d];
      [apply extends_refl|].
    rewrite TraceFacts.lift_bind.
    destruct (extract_options d) as [e|o]; [apply extends_refl|].
    unfold mbind, M_bind, read_sheets_to_modify. simpl.
    apply for_each_extends. intros [name df] s. apply pass_extends.
Qed.

(** X20. What [colourize_columns] and [colourize_all] can do to the object,
    whatever their arguments and their outcome: [sheets_to_modify] is as
    it was, formats are only added to the book, no sheet is created or
    dropped, the log of every sheet keeps what it held, and only the sheets
    named in [sheets_to_modify] can receive directives. *)
Theorem X20_colourize_frame columns exclude_columns instructions multi_index self :
  extends (sheets_to_modify self).*1 self
    (colourize_columns columns instructions multi_index self).2
  /\ extends (sheets_to_modify self).*1 self
       (colourize_all instructions exclude_columns multi_index self).2.
Proof. apply colourize_extends. Qed.

(** X21. An object on which [set_sheets_to_modify] was never called has
    no sheet to work on: both public methods leave it exactly as
    [__init__] built it, and they return normally exactly when the
    instruction string parses to a complete set of options. *)
Theorem X21_fresh_object_untouched writer columns exclude_columns instructions
    multi_index :
  let complete :=
    exists d o, _parse_instructions instructions = ok d
                /\ extract_options d = ok o in
  (colourize_columns columns instructions multi_index (__init__ writer)).2
  = __init__ writer
  /\ (colourize_all instructions exclude_columns multi_index (__init__ writer)).2
     = __init__ writer
  /\ ((colourize_columns columns instructions multi_index (__init__ writer)).1
      = ok tt <-> complete)
  /\ ((colourize_all instructions exclude_columns multi_index (__init__ writer)).1
      = ok tt <-> complete).
Proof.
  unfold colourize_columns, colourize_all. rewrite !TraceFacts.lift_bind.
  destruct (_parse_instructions instructions) as [e|d].
  { repeat split; try done; intros (d & o & Hd & _); discriminate Hd. }
  rewrite !TraceFacts.lift_bind.
  destruct (extract_options d) as [e|o] eqn:Ho.
  { repeat split; try done; intros (d' & o' & Hd & Ho');
      injection Hd as <-; rewrite Ho in Ho'; discriminate Ho'. }
  repeat split; try done; intros _; by exists d, o.
Qed.

Lemma selected_ext sheet_data columns1 columns2 multi_index :
  (forall lbl, lbl ∈ Pandas.columns_tolist sheet_data ->
               (lbl ∈ columns1 <-> lbl ∈ columns2)) ->
  _get_indices_to_edit sheet_data columns1 multi_index
  = _get_indices_to_edit sheet_data columns2 multi_index.
Proof.
  intros Heq. unfold _get_indices_to_edit.
  apply List.filter_ext_in. intros i _.
  destruct (Pandas.columns_tolist sheet_data !! i) as [lbl|] eqn:Hl; [|done].
  f_equal. apply bool_decide_ext, Heq. by eapply list_elem_of_lookup_2.
Qed.

Lemma pass_of_selection sheet_name sheet_data columns1 columns2
    formatting_option margin_options colour_options majority_percentage
    write_offsets multi_index self :
  _get_indices_to_edit sheet_data columns1 multi_index
  = _get_indices_to_edit sheet_data columns2 multi_index ->
  _colourize_columns sheet_name sheet_data columns1 formatting_option
    margin_options colour_options majority_percentage write_offsets
    multi_index self
  = _colourize_columns sheet_name sheet_data columns2 formatting_option
      margin_options colour_options majority_percentage write_offsets
      multi_index self.
Proof. intros Heq. by rewrite !colourize_columns_steps, Heq. Qed.

Lemma for_each_ext {A} (l : list A) (f g : A -> M unit) :
  (forall x, x ∈ l -> forall self, f x self = g x self) ->
  forall self, for_each l f self = for_each l g self.
Proof.
  induction l as [|x l IH]; intros Heq self; [done|].
  simpl. unfold mbind, M_bind. rewrite (Heq x) by by left.
  destruct (g x self) as [[e|[]] s]; [done|].
  apply IH. intros y Hy. apply Heq. by right.
Qed.

(** X22. [colourize_all] is [colourize_columns] on the complement: if, on
    every registered frame, a list of columns names exactly the labels that
    are not excluded, the two calls give the same result and the same
    object.  In particular no excluded column is ever coloured. *)
Theorem X22_colourize_all_complement instructions exclude_columns columns
    multi_index self :
  (forall name df lbl,
     (name, df) ∈ sheets_to_modify self ->
     lbl ∈ Pandas.columns_tolist df ->
     (lbl ∈ columns <-> lbl ∉ exclude_columns)) ->
  colourize_all instructions exclude_columns multi_index self
  = colourize_columns columns instructions multi_index self.
Proof.
  intros Hcols. unfold colourize_all, colourize_columns.
  rewrite !TraceFacts.lift_bind.
  destruct (_parse_instructions instructions) as [e|d]; [done|].
  rewrite !TraceFacts.lift_bind.
  destruct (extract_options d) as [e|o]; [done|].
  unfold mbind, M_bind, read_sheets_to_modify. simpl.
  apply for_each_ext. intros [name df] Hitem s.
  apply pass_of_selection, selected_ext. intros lbl Hlbl.
  rewrite (Hcols name df lbl Hitem Hlbl).
  rewrite list_elem_of_In, List.filter_In, <- list_elem_of_In.
  rewrite negb_true_iff, bool_decide_eq_false. tauto.
Qed.

Lemma X22_colourize_all_complement_witness :
  colourize_all Instr.example [Simple "name"] false Samples.modifier0
  = colourize_columns [Simple "score"] Instr.example false Samples.modifier0.
Proof.
  apply (X22_colourize_all_complement Instr.example [Simple "name"]
           [Simple "score"] false Samples.modifier0).
  intros name df lbl Hitem Hlbl.
  apply list_elem_of_singleton in Hitem. injection Hitem as -> ->.
  apply elem_of_cons in Hlbl as [->|Hlbl].
  - split; [intros _ H; elem_contra H | intros _; solve_elem].
  - apply list_elem_of_singleton in Hlbl as ->.
    split; [intros H; elem_contra H | intros H; destruct H; solve_elem].
Defined.

(** X26. [set_sheets_to_modify] replaces the registered sheets, it does
    not add to them: after registering the dict [items], a colouring call
    keeps [items] registered and leaves the log of every sheet that [items]
    does not name as it was, whatever had been registered before. *)
Theorem X26_registration_replaces items columns exclude_columns instructions
    multi_index self :
  let registered := (set_sheets_to_modify items self).2 in
  forall self',
    self' = (colourize_columns columns instructions multi_index registered).2
    \/ self' = (colourize_all instructions exclude_columns multi_index
                  registered).2 ->
    (set_sheets_to_modify items self).1 = ok tt
    /\ sheets_to_modify self' = items
    /\ forall name, name ∉ items.*1 ->
         Xlsx.sheets (workbook_writer self') !! name
         = Xlsx.sheets (workbook_writer self) !! name.
Proof.
  intros registered self' Hself'.
  assert (extends items.*1 registered self') as (Hs & _ & Hl).
  { destruct (colourize_extends columns exclude_columns instructions
                multi_index registered) as [H1 H2].
    destruct Hself' as [->| ->]; [exact H1 | exact H2]. }
  split; [done|]. split; [by rewrite Hs|].
  intros name Hname. specialize (Hl name). simpl in Hl.
  destruct (Xlsx.sheets (workbook_writer self) !! name) as [log|]; [|done].
  destruct Hl as (ws & -> & Hws). by rewrite Hws, app_nil_r.
Qed.

Lemma X26_registration_replaces_witness :
  Xlsx.sheets
    (workbook_writer
       (colourize_columns [Simple "score"] Instr.example false
          (set_sheets_to_modify [] Samples.modifier0).2).2) !! "Sheet1"%string
  = Some [].
Proof.
  destruct (X26_registration_replaces [] [Simple "score"] [] Instr.example
              false Samples.modifier0 _ (or_introl eq_refl)) as (_ & _ & Hl).
  rewrite Hl; [reflexivity | apply not_elem_of_nil].
Defined.

End workbook_properties.

Section cell_properties.

Local Open Scope string_scope.

Lemma filter_nonempty_elem {B} (P : B -> bool) (l : list B) :
  List.filter P l <> [] -> exists w, w ∈ l /\ P w = true.
Proof.
  destruct (List.filter P l) as [|w t] eqn:Hf; [done|]. intros _.
  assert (List.In w (List.filter P l)) as Hin by (rewrite Hf; by left).
  apply List.filter_In in Hin as [Hin Hw]. exists w.
  by rewrite list_elem_of_In.
Qed.

Lemma filter_flat_map_nil {A B} (P : B -> bool) (f : A -> list B) (l : list A) :
  (forall y, y ∈ l -> List.filter P (f y) = []) ->
  List.filter P (flat_map f l) = [].
Proof.
  induction l as [|y l IH]; intros Hnil; [done|].
  simpl. rewrite List.filter_app, (Hnil y) by by left.
  apply IH. intros z Hz. apply Hnil. by right.
Qed.

Lemma filter_flat_map_le {A B} (P : B -> bool) (f : A -> list B) (l : list A) n :
  NoDup l ->
  (forall x y, x ∈ l -> y ∈ l ->
     List.filter P (f x) <> [] -> List.filter P (f y) <> [] -> x = y) ->
  (forall x, x ∈ l -> (length (List.filter P (f x)) <= n)%nat) ->
  (length (List.filter P (flat_map f l)) <= n)%nat.
Proof.
  induction 1 as [|x l Hx Hnd IH]; intros Huniq Hlen; [simpl; lia|].
  simpl. rewrite List.filter_app, length_app.
  destruct (List.filter P (f x)) as [|w t] eqn:Hfx.
  - simpl. apply IH.
    + intros a b Ha Hb. apply Huniq; by right.
    + intros a Ha. apply Hlen. by right.
  - rewrite filter_flat_map_nil.
    + rewrite <- Hfx. simpl. rewrite Nat.add_0_r. apply Hlen. by left.
    + intros y Hy. destruct (List.filter P (f y)) as [|w' t'] eqn:Hfy; [done|].
      assert (x = y) as <-; [|done].
      apply Huniq; [by left | by right | by rewrite Hfx | by rewrite Hfy].
Qed.

Lemma cell_directives_length formatting_option fU fL row_offset column_offset
    b largest smallest umaj lmaj column_pos row_pos v :
  (length (cell_directives formatting_option fU fL row_offset column_offset b
             largest smallest umaj lmaj column_pos row_pos v) <= 2)%nat
  /\ (formatting_option <> "colour_both" ->
      (length (cell_directives formatting_option fU fL row_offset column_offset
                 b largest smallest umaj lmaj column_pos row_pos v) <= 1)%nat).
Proof.
  unfold cell_directives. rewrite length_app.
  destruct (bool_decide (formatting_option ∈ upper_modes)) eqn:Hu;
    destruct (bool_decide (formatting_option ∈ lower_modes)) eqn:Hl; simpl.
  - split.
    + repeat match goal with |- context [if ?c then _ else _] => destruct c end;
        simpl; lia.
    + intros Hne. apply upper_modes_spec in Hu as [Hu|Hu]; [|done].
      apply lower_modes_spec in Hl as [Hl|Hl]; [|done].
      rewrite Hu in Hl. discriminate Hl.
  - split; intros; destruct (_ && _); simpl; lia.
  - split; intros; destruct (_ && _); simpl; lia.
  - split; intros; simpl; lia.
Qed.

Lemma cell_trace_length sheet_data formatting_option fU fL row_offset
    column_offset b largest smallest umaj lmaj column_pos row_pos :
  (length (cell_trace sheet_data formatting_option fU fL row_offset
             column_offset b largest smallest umaj lmaj column_pos row_pos) <= 2)%nat
  /\ (formatting_option <> "colour_both" ->
      (length (cell_trace sheet_data formatting_option fU fL row_offset
                 column_offset b largest smallest umaj lmaj column_pos row_pos)
       <= 1)%nat).
Proof.
  unfold cell_trace.
  destruct (Pandas.iat sheet_data row_pos column_pos) as [[v|s]|];
    try (split; intros; simpl; lia).
  apply cell_directives_length.
Qed.

Lemma cell_trace_target sheet_data formatting_option fU fL row_offset
    column_offset b largest smallest umaj lmaj column_pos row_pos w :
  w ∈ cell_trace sheet_data formatting_option fU fL row_offset column_offset
        b largest smallest umaj lmaj column_pos row_pos ->
  Xlsx.w_row w = (row_offset + Z.of_nat row_pos)%Z
  /\ Xlsx.w_col w = (column_offset + Z.of_nat column_pos)%Z.
Proof.
  unfold cell_trace.
  destruct (Pandas.iat sheet_data row_pos column_pos) as [[v|s]|];
    try (intros Hw; by apply elem_of_nil in Hw).
  intros Hw. apply TraceFacts.cell_directives_elem in Hw
    as (q & f & _ & -> & _). done.
Qed.

Lemma pass_trace_per_cell sheet_data formatting_option fU fL row_offset
    column_offset columns_to_format margin_options majority_percentage
    multi_index row col n :
  (forall b largest smallest umaj lmaj column_pos row_pos,
     (length (cell_trace sheet_data formatting_option fU fL row_offset
                column_offset b largest smallest umaj lmaj column_pos row_pos)
      <= n)%nat) ->
  (length (written_at row col
             (pass_trace sheet_data formatting_option fU fL row_offset
                column_offset columns_to_format margin_options
                majority_percentage multi_index)) <= n)%nat.
Proof.
  intros Hcell. unfold written_at, pass_trace.
  apply filter_flat_map_le; [apply selected_NoDup| |].
  - intros c c' _ _ Hc Hc'.
    apply filter_nonempty_elem in Hc as (w & Hw & HP).
    apply filter_nonempty_elem in Hc' as (w' & Hw' & HP').
    unfold column_trace in Hw, Hw'.
    apply list_elem_of_In, in_flat_map in Hw as (r & _ & Hw).
    apply list_elem_of_In, in_flat_map in Hw' as (r' & _ & Hw').
    apply list_elem_of_In, cell_trace_target in Hw as [_ Hw].
    apply list_elem_of_In, cell_trace_target in Hw' as [_ Hw'].
    apply andb_true_iff in HP as [_ HP]. apply andb_true_iff in HP' as [_ HP'].
    apply Z.eqb_eq in HP, HP'. lia.
  - intros c _. unfold column_trace.
    apply filter_flat_map_le; [apply NoDup_ListNoDup, List.seq_NoDup| |].
    + intros r r' _ _ Hr Hr'.
      apply filter_nonempty_elem in Hr as (w & Hw & HP).
      apply filter_nonempty_elem in Hr' as (w' & Hw' & HP').
      apply cell_trace_target in Hw as [Hw _].
      apply cell_trace_target in Hw' as [Hw' _].
      apply andb_true_iff in HP as [HP _]. apply andb_true_iff in HP' as [HP' _].
      apply Z.eqb_eq in HP, HP'. lia.
    + intros r _. etrans; [apply List.filter_length_le | apply Hcell].
Qed.

Lemma written_at_prefix row col ws T :
  ws `prefix_of` T ->
  (length (written_at row col ws) <= length (written_at row col T))%nat.
Proof.
  intros [k ->]. unfold written_at. rewrite List.filter_app, length_app. lia.
Qed.

(** X23. One pass addresses a cell at most twice, and at most once unless
    the mode is [colour_both]: among the directives a pass appends to its
    sheet, whatever the outcome of the pass, at most two (one) carry a
    given row and column. *)
Theorem X23_writes_per_cell sheet_name sheet_data columns_to_format
    formatting_option margin_options colour_options majority_percentage
    write_offsets multi_index self :
  exists ws,
    emitted sheet_name (register_formats colour_options self)
      (_colourize_columns sheet_name sheet_data columns_to_format
         formatting_option margin_options colour_options majority_percentage
         write_offsets multi_index self).2 ws
    /\ forall row col,
         (length (written_at row col ws) <= 2)%nat
         /\ (formatting_option <> "colour_both" ->
             (length (written_at row col ws) <= 1)%nat).
Proof.
  destruct (TraceFacts.colourize_columns_run sheet_name sheet_data
    columns_to_format formatting_option margin_options colour_options
    majority_percentage write_offsets multi_index self)
    as (r & ws & Hrun & Hpre & _).
  exists ws. rewrite Hrun. split; [done|]. intros row col. split.
  - etrans; [by apply written_at_prefix|].
    apply pass_trace_per_cell. intros. apply cell_trace_length.
  - intros Hne. etrans; [by apply written_at_prefix|].
    apply pass_trace_per_cell. intros. by apply cell_trace_length.
Qed.

End cell_properties.

Section autofit_properties.

Import Lifecycle.
Local Open Scope string_scope.

Lemma autofit_each_outcome writer names :
  (Forall (fun name => is_Some (Xlsx.sheets writer !! name)) names
   /\ autofit_each writer names = (ok tt, names))
  \/ (exists before missing after,
        names = (before ++ missing :: after)%list
        /\ Forall (fun name => is_Some (Xlsx.sheets writer !! name)) before
        /\ Xlsx.sheets writer !! missing = None
        /\ autofit_each writer names = (raise KeyError, before)).
Proof.
  induction names as [|name names IH]; [left; by split|].
  simpl. destruct (Xlsx.sheets writer !! name) as [log|] eqn:Hn.
  - destruct IH as [[Hall ->]|(before & missing & after & -> & Hall & Hm & ->)].
    + left. split; [|done]. constructor; [by rewrite Hn | done].
    + right. exists (name :: before), missing, after.
      repeat split; [|done]. constructor; [by rewrite Hn | done].
  - right. exists [], name, names. by repeat split.
Qed.

(** X24. [autofit_sheets] visits the registered sheet names in order.  It
    returns, having autofitted every one of them, when the writer has a
    sheet for each name; otherwise it raises [KeyError] at the first name
    without a sheet, after autofitting exactly the names before it. *)
Theorem X24_autofit_outcome self :
  let present name := is_Some (Xlsx.sheets (workbook_writer self) !! name) in
  let names := (sheets_to_modify self).*1 in
  (Forall present names /\ autofit_sheets self = (ok tt, names))
  \/ (exists before missing after,
        names = (before ++ missing :: after)%list
        /\ Forall present before
        /\ ~ present missing
        /\ autofit_sheets self = (raise KeyError, before)).
Proof.
  simpl. unfold autofit_sheets.
  destruct (autofit_each_outcome (workbook_writer self) (sheets_to_modify self).*1)
    as [H|(before & missing & after & Hn & Hall & Hm & Hr)]; [by left|].
  right. exists before, missing, after. repeat split; try done.
  rewrite Hm. by intros [? ?].
Qed.

Lemma extends_present allowed self self' name :
  extends allowed self self' ->
  is_Some (Xlsx.sheets (workbook_writer self) !! name) ->
  is_Some (Xlsx.sheets (workbook_writer self') !! name).
Proof.
  intros (_ & _ & Hl) [log Hlog]. specialize (Hl name). rewrite Hlog in Hl.
  destruct Hl as (ws & -> & _). by eexists.
Qed.

Lemma pass_ok_sheet sheet_name sheet_data columns_to_format formatting_option
    margin_options colour_options majority_percentage write_offsets
    multi_index self :
  (_colourize_columns sheet_name sheet_data columns_to_format
     formatting_option margin_options colour_options majority_percentage
     write_offsets multi_index self).1 = ok tt ->
  is_Some (Xlsx.sheets (workbook_writer self) !! sheet_name).
Proof.
  rewrite colourize_columns_steps.
  destruct (compute_bounds _ _ _ _) as [e|bounds]; [discriminate|].
  destruct (Xlsx.sheets (workbook_writer self) !! sheet_name) as [log|];
    [by eexists | discriminate].
Qed.

Lemma for_each_sheets_present (items : list (string * DataFrame))
    (body : string * DataFrame -> M unit) :
  (forall item self, extends [item.1] self (body item self).2) ->
  (forall item self, (body item self).1 = ok tt ->
     is_Some (Xlsx.sheets (workbook_writer self) !! item.1)) ->
  forall self,
    (for_each items body self).1 = ok tt ->
    Forall (fun name =>
              is_Some (Xlsx.sheets
                         (workbook_writer (for_each items body self).2) !! name))
           items.*1.
Proof.
  intros Hext Hok. induction items as [|item items IH]; intros self Hrun;
    [constructor|].
  pose proof (for_each_extends items body Hext) as Hrest.
  simpl in *. unfold mbind, M_bind in *.
  pose proof (Hok item self) as Hitem.
  destruct (body item self) as [[e|[]] s1] eqn:Hb; [discriminate Hrun|].
  simpl in Hitem. constructor.
  - eapply extends_present; [apply Hrest|].
    eapply extends_present; [|by apply Hitem].
    specialize (Hext item self). rewrite Hb in Hext. exact Hext.
  - by apply IH.
Qed.

Lemma autofit_each_present writer names :
  Forall (fun name => is_Some (Xlsx.sheets writer !! name)) names ->
  autofit_each writer names = (ok tt, names).
Proof.
  induction 1 as [|name names [log Hn] _ IH]; [done|].
  simpl. by rewrite Hn, IH.
Qed.

(** X25. After a call of [colourize_columns] or [colourize_all] that
    returned normally, [autofit_sheets] returns normally too and autofits
    every registered sheet: the colouring found a worksheet for every
    registered name, and it removes none. *)
Theorem X25_autofit_after_colourize columns exclude_columns instructions
    multi_index self self' :
  colourize_columns columns instructions multi_index self = (ok tt, self')
  \/ colourize_all instructions exclude_columns multi_index self = (ok tt, self') ->
  autofit_sheets self' = (ok tt, (sheets_to_modify self).*1).
Proof.
  intros Hrun.
  assert (sheets_to_modify self' = sheets_to_modify self
          /\ Forall (fun name =>
                       is_Some (Xlsx.sheets (workbook_writer self') !! name))
                    (sheets_to_modify self).*1) as [Hs Hall].
  { destruct Hrun as [Hrun|Hrun].
    - unfold colourize_columns in Hrun. rewrite TraceFacts.lift_bind in Hrun.
      destruct (_parse_instructions instructions) as [e|d]; [discriminate Hrun|].
      rewrite TraceFacts.lift_bind in Hrun.
      destruct (extract_options d) as [e|o]; [discriminate Hrun|].
      unfold mbind, M_bind, read_sheets_to_modify in Hrun. simpl in Hrun.
      match type of Hrun with for_each ?items ?body _ = _ =>
        pose proof (for_each_extends items body) as Hext;
        pose proof (for_each_sheets_present items body) as Hpres
      end.
      specialize (Hext (fun '(name, df) s => pass_extends name df _ _ _ _ _ _ _ s) self).
      specialize (Hpres (fun '(name, df) s => pass_extends name df _ _ _ _ _ _ _ s)
                        (fun '(name, df) s => pass_ok_sheet name df _ _ _ _ _ _ _ s)
                        self).
      rewrite Hrun in Hext, Hpres. split; [apply Hext | by apply Hpres].
    - unfold colourize_all in Hrun. rewrite TraceFacts.lift_bind in Hrun.
      destruct (_parse_instructions instructions) as [e|d]; [discriminate Hrun|].
      rewrite TraceFacts.lift_bind in Hrun.
      destruct (extract_options d) as [e|o]; [discriminate Hrun|].
      unfold mbind, M_bind, read_sheets_to_modify in Hrun. simpl in Hrun.
      match type of Hrun with for_each ?items ?body _ = _ =>
        pose proof (for_each_extends items body) as Hext;
        pose proof (for_each_sheets_present items body) as Hpres
      end.
      specialize (Hext (fun '(name, df) s => pass_extends name df _ _ _ _ _ _ _ s) self).
      specialize (Hpres (fun '(name, df) s => pass_extends name df _ _ _ _ _ _ _ s)
                        (fun '(name, df) s => pass_ok_sheet name df _ _ _ _ _ _ _ s)
                        self).
      rewrite Hrun in Hext, Hpres. split; [apply Hext | by apply Hpres]. }
  unfold autofit_sheets. rewrite Hs. by apply autofit_each_present.
Qed.

Lemma colourize_example_returns :
  (colourize_columns [Simple "score"] Instr.example false Samples.modifier0).1
  = ok tt.
Proof. vm_compute. reflexivity. Qed.

Lemma X25_autofit_after_colourize_witness :
  autofit_sheets
    (colourize_columns [Simple "score"] Instr.example false Samples.modifier0).2
  = (ok tt, ["Sheet1"]).
Proof.
  apply (X25_autofit_after_colourize [Simple "score"] [] Instr.example false
           Samples.modifier0).
  left. pose proof colourize_example_returns as Hr.
  destruct (colourize_columns _ _ _ _) as [r s]. simpl in *. by rewrite Hr.
Defined.

End autofit_properties.
